(** * Regression verification of pipeline outputs (pipeline_testing.py)

    A shallow embedding of the comparison engine of
    [cgatpipelines/tools/pipeline_testing.py]: the metric collector
    [compute_file_metrics] and the reconciliation task [compareCheckSums],
    together with the properties of the engine that the design document
    states.

    Library calls whose code lives outside the repository (the regular
    expression engine, [P.as_list], [pipes.quote], [glob.glob],
    [iotools.is_complete]) are taken as parameters; pandas data frames
    are finite maps from the row label to the row. *)

From Stdlib Require Import ZArith String Ascii List Bool.
From stdpp Require Import base option gmap strings list fin_sets fin_maps sorting.

Local Open Scope string_scope.
#[local] Set Warnings "-clear-no-such-hyp,-register-all".

(** ** Exceptions and the error monad *)

Inductive exn : Type :=
  | ValueError (msg : string)
  | KeyError (key : string)
  | ReError (pattern : string)
  | FileNotFoundError (path : string)
  | ParserError (path : string).

Inductive result (A : Type) : Type :=
  | Ok (a : A)
  | Raise (e : exn).
Arguments Ok {A} a.
Arguments Raise {A} e.

#[global] Instance result_ret : MRet result := λ A a, Ok a.
#[global] Instance result_bind : MBind result := λ A B f m,
  match m with
  | Ok a => f a
  | Raise e => Raise e
  end.

Definition is_ok {A} (r : result A) : bool :=
  match r with Ok _ => true | Raise _ => false end.

(** ** Strings *)

(** [P.snip(filename, extension)]: the file name without its extension;
    a [ValueError] when the name does not end in the extension. *)
Fixpoint strip_suffix (filename extension : string) : option string :=
  if String.eqb filename extension then Some EmptyString
  else match filename with
       | EmptyString => None
       | String c rest => String c <$> strip_suffix rest extension
       end.

Definition snip (filename extension : string) : result string :=
  match strip_suffix filename extension with
  | Some root => Ok root
  | None => Raise (ValueError ("'" +:+ filename +:+ "' expected to end in '"
                               +:+ extension +:+ "'"))
  end.

(** [sep.join(l)] *)
Definition join (sep : string) (l : list string) : string := String.concat sep l.

(** Truth value of a configuration string. *)
Definition truthy (s : string) : bool := negb (String.eqb s EmptyString).

(** ** Data frames

    [pandas.read_csv(..., sep="\t", index_col=0)] gives a table whose
    rows are labelled by the first column (the file path).  The task reads
    the columns [md5] and [nlines] only.  A cell that is empty in the file
    is a missing value ([None] here, NaN in pandas).  A path labels one
    row: the collector lists every file once. *)

Record row : Type := Row { md5 : option string; nlines : option Z }.

Record DataFrame : Type := Frame {
  columns : list string;
  rows : gmap string row
}.

(** [df.index] as a set, and [len(df)]. *)
Definition index (df : DataFrame) : gset string := dom (rows df).
Definition len_frame (df : DataFrame) : nat := size (rows df).

(** [df[name]]: the column as a series, [KeyError] when the frame has no
    such column. *)
Definition column {A} (name : string) (proj : row → option A)
    (df : DataFrame) : result (gmap string (option A)) :=
  if bool_decide (name ∈ columns df) then Ok (proj <$> rows df)
  else Raise (KeyError name).

(** [series[labels]]: the entries at the given labels, [KeyError] when a
    label is not in the index of the series. *)
Definition select {A} (s : gmap string (option A)) (labels : gset string)
    : result (gmap string (option A)) :=
  if bool_decide (labels ⊆ dom s)
  then Ok (filter (λ kv, kv.1 ∈ labels) s)
  else Raise (KeyError "not in index").

(** Element-wise comparison of cells.  A missing value is different from
    everything, itself included: [!=] is true and [==] is false as soon as
    one side is missing. *)
Definition cell_ne {A} `{EqDecision A} (a b : option A) : bool :=
  match a, b with
  | Some x, Some y => negb (bool_decide (x = y))
  | _, _ => true
  end.

Definition cell_eq {A} `{EqDecision A} (a b : option A) : bool :=
  match a, b with
  | Some x, Some y => bool_decide (x = y)
  | _, _ => false
  end.

(** [s1 op s2] on two series; pandas refuses series with different
    labels. *)
Definition series_cmp {A} (op : option A → option A → bool)
    (s1 s2 : gmap string (option A)) : result (gmap string bool) :=
  if bool_decide (dom s1 = dom s2) then Ok (map_zip_with op s1 s2)
  else Raise (ValueError "Can only compare identically-labeled Series objects").

(** [set(dd.index[dd])]: the labels at which a boolean series is true. *)
Definition true_labels (dd : gmap string bool) : gset string :=
  dom (filter (λ kv, kv.2 = true) dd).

(** [set(dd.index[dd])] for [dd = (cmp[name][labels] op ref[name][labels])]. *)
Definition compare_column {A} (name : string) (proj : row → option A)
    (op : option A → option A → bool) (cmp_data ref_data : DataFrame)
    (labels : gset string) : result (gset string) :=
  c ← column name proj cmp_data;
  cs ← select c labels;
  r ← column name proj ref_data;
  rs ← select r labels;
  dd ← series_cmp op cs rs;
  mret (true_labels dd).

(** ** Reconciliation of two tables (the body of [compareCheckSums])

    A compiled pattern is used through [search] only, so it is the
    predicate "[pattern.search(x)] finds a match". *)

Definition regex : Type := string → bool.

Record buckets : Type := Buckets {
  shared_files : gset string;
  missing : gset string;
  extra : gset string;
  same_exist : gset string;
  different_lines : gset string;
  same_lines : gset string;
  different_md5 : gset string;
  same_md5 : gset string;
  (** the working set [different] when the comparison ends *)
  different : gset string
}.

(** Paths of the working set that a pattern selects. *)
Definition matching (r : regex) (X : gset string) : gset string :=
  filter (λ x, r x = true) X.
Definition not_matching (r : regex) (X : gset string) : gset string :=
  filter (λ x, r x ≠ true) X.

Definition reconcile (regex_exist regex_linecount regex_md5 : option regex)
    (cmp_data ref_data : DataFrame) : result buckets :=
  let shared_files := index cmp_data ∩ index ref_data in
  let missing := index ref_data ∖ index cmp_data in
  let extra := index cmp_data ∖ index ref_data in
  let different := shared_files in
  (* remove those for which only check for existence *)
  let '(same_exist, different) :=
    match regex_exist with
    | Some r => (matching r different, not_matching r different)
    | None => (∅, different)
    end in
  (* select those for which only check for number of lines *)
  '(different_lines, different, same_lines) ←
    match regex_linecount with
    | Some r =>
        let check_lines := matching r different in
        different_lines ← compare_column "nlines" nlines cell_ne
                             cmp_data ref_data check_lines;
        let different := different ∖ check_lines in
        same_lines ← compare_column "nlines" nlines cell_eq
                        cmp_data ref_data check_lines;
        mret (different_lines, different, same_lines)
    | None => mret (∅, different, ∅)
    end;
  (* remainder - check md5 *)
  '(different_md5, same_md5) ←
    match regex_md5 with
    | Some r =>
        let check_md5 := matching r different in
        different_md5 ← compare_column "md5" md5 cell_ne
                           cmp_data ref_data check_md5;
        same_md5 ← compare_column "md5" md5 cell_eq
                      cmp_data ref_data check_md5;
        mret (different_md5, same_md5)
    | None => mret (∅, ∅)
    end;
  mret (Buckets shared_files missing extra same_exist
          different_lines same_lines different_md5 same_md5 different).

(** ** The verdict *)

Inductive Status : Type := OK | FAIL.

#[global] Instance Status_eq_dec : EqDecision Status.
Proof. solve_decision. Defined.

Definition status_of (job_finished : bool) (b : buckets) : Status :=
  if job_finished &&
     Nat.eqb (size (missing b) + size (extra b) +
              size (different_md5 b) + size (different_lines b)) 0
  then OK else FAIL.

(** One line of [md5_compare.tsv].  The four [files_*] columns are the
    sets that the task joins with commas. *)
Record verdict : Type := Verdict {
  col_track : string;
  col_status : Status;
  col_job_finished : bool;
  col_nfiles : nat;
  col_nref : nat;
  col_missing : nat;
  col_extra : nat;
  col_different : nat;
  col_different_md5 : nat;
  col_different_lines : nat;
  col_same : nat;
  col_same_md5 : nat;
  col_same_lines : nat;
  col_same_exist : nat;
  col_files_missing : gset string;
  col_files_extra : gset string;
  col_files_different_md5 : gset string;
  col_files_different_lines : gset string
}.

Definition header : list string :=
  ["track"; "status"; "job_finished"; "nfiles"; "nref"; "missing"; "extra";
   "different"; "different_md5"; "different_lines"; "same"; "same_md5";
   "same_lines"; "same_exist"; "files_missing"; "files_extra";
   "files_different_md5"; "files_different_lines"].

Definition make_verdict (track : string) (job_finished : bool)
    (cmp_data ref_data : DataFrame) (b : buckets) : verdict :=
  {| col_track := track;
     col_status := status_of job_finished b;
     col_job_finished := job_finished;
     col_nfiles := len_frame cmp_data;
     col_nref := len_frame ref_data;
     col_missing := size (missing b);
     col_extra := size (extra b);
     col_different := size (different_md5 b) + size (different_lines b);
     col_different_md5 := size (different_md5 b);
     col_different_lines := size (different_lines b);
     col_same := size (same_md5 b) + size (same_lines b) + size (same_exist b);
     col_same_md5 := size (same_md5 b);
     col_same_lines := size (same_lines b);
     col_same_exist := size (same_exist b);
     col_files_missing := missing b;
     col_files_extra := extra b;
     col_files_different_md5 := different_md5 b;
     col_files_different_lines := different_lines b |}.

(** ** The working directory and the configuration *)

(** What [read_csv] makes of a file: a table, or a parse error. *)
Inductive file : Type :=
  | Table (df : DataFrame)
  | Malformed.

Record World : Type := {
  (** [glob.glob(pattern)] in the working directory *)
  glob : string → list string;
  (** [iotools.is_complete(logfile)] *)
  is_complete : string → bool;
  (** the configuration dictionary [PARAMS] *)
  PARAMS : gmap string string;
  (** the files of the working directory that the task reads *)
  files : gmap string file
}.

Definition path_exists (W : World) (f : string) : bool :=
  bool_decide (is_Some (files W !! f)).

Definition read_csv (W : World) (f : string) : result DataFrame :=
  match files W !! f with
  | None => Raise (FileNotFoundError f)
  | Some Malformed => Raise (ParserError f)
  | Some (Table df) => Ok df
  end.

(** The loop over the log files of a track. *)
Definition log_check (W : World) (track : string) : bool :=
  fold_left (λ job_finished logfile, job_finished && is_complete W logfile)
            (glob W (track +:+ "*.log")) true.

Section Task.

(** [P.as_list]: a configuration value as a list of fragments. *)
Variable as_list : string → list string.
(** [re.compile]: [None] when the pattern is rejected ([re.error]). *)
Variable re_compile : string → option regex.
(** [pipes.quote]. *)
Variable quote : string → string.

(** [PARAMS.get(key, None)], then, when the value is true,
    [re.compile("|".join(P.as_list(value)))]. *)
Definition policy (W : World) (key : string) : result (option regex) :=
  match PARAMS W !! key with
  | Some value =>
      if truthy value then
        let pattern := join "|" (as_list value) in
        match re_compile pattern with
        | Some r => Ok (Some r)
        | None => Raise (ReError pattern)
        end
      else Ok None
  | None => Ok None
  end.

(** One iteration of the loop of [compareCheckSums]. *)
Definition compare_one (W : World) (infile : string) : result verdict :=
  track ← snip infile ".stats";
  let job_finished := log_check W track in
  let reffile := track +:+ ".ref" in
  regex_exist ← policy W (track +:+ "_regex_exist");
  regex_linecount ← policy W (track +:+ "_regex_linecount");
  regex_md5 ← policy W (track +:+ "_regex_md5");
  if negb (path_exists W reffile)
  then Raise (ValueError ("no reference data defined for " +:+ track))
  else
    cmp_data ← read_csv W infile;
    ref_data ← read_csv W reffile;
    b ← reconcile regex_exist regex_linecount regex_md5 cmp_data ref_data;
    mret (make_verdict track job_finished cmp_data ref_data b).

(** The loop: the lines written so far, and the exception that ended the
    task, if any. *)
Fixpoint compare_loop (W : World) (infiles : list string)
    : list verdict * option exn :=
  match infiles with
  | [] => ([], None)
  | infile :: rest =>
      match compare_one W infile with
      | Raise e => ([], Some e)
      | Ok v => let '(vs, e) := compare_loop W rest in (v :: vs, e)
      end
  end.

Record output : Type := Output {
  out_header : list string;
  out_lines : list verdict;
  out_raised : option exn
}.

Definition compareCheckSums (W : World) (infiles : list string) : output :=
  let '(vs, e) := compare_loop W infiles in Output header vs e.

(** ** The metric collector *)

Inductive action : Type :=
  | E_info (msg : string)
  | E_debug (msg : string)
  | touch_file (filename : string)
  | P_run (statement : list string).

Definition dquote : string := String (ascii_of_nat 34) EmptyString.

(** The shell statement of [compute_file_metrics], one item per line of
    the source. *)
Definition find_statement (track regex_pattern metric test_scriptsdir
    outfile : string) : list string :=
  if String.eqb metric "file" then
    ["find " +:+ track +:+ ".dir";
     "-type f";
     "-not -regex '.*\/report.*'";
     "-not -regex '.*\/_.*'";
     "\( " +:+ regex_pattern +:+ " \)";
     "| sort -k1,1";
     "> " +:+ outfile]
  else
    ["find " +:+ track +:+ ".dir";
     "-type f";
     "-not -regex '.*\/report.*'";
     "-not -regex '.*\/_.*'";
     "\( " +:+ regex_pattern +:+ " \)";
     "-exec " +:+ test_scriptsdir +:+ "/cgat_file_apply.sh {} "
        +:+ metric +:+ " \;";
     "| perl -p -e " +:+ dquote +:+ "s/ +/\t/g" +:+ dquote;
     "| sort -k1,1";
     "> " +:+ outfile].

Definition compute_file_metrics (test_scriptsdir : string)
    (infile outfile metric : string) (suffixes : option (list string))
    : result (list action) :=
  match suffixes with
  | None | Some [] =>
      Ok [E_info ("No metrics computed for " +:+ outfile);
          touch_file outfile]
  | Some suffixes =>
      track ← snip infile ".log";
      let regex_pattern :=
        join " -or " (map (λ x, "-regex .*" +:+ quote x +:+ "$") suffixes) in
      Ok [E_debug ("applying metric " +:+ metric +:+ " to files matching "
                   +:+ regex_pattern);
          P_run (find_statement track regex_pattern metric test_scriptsdir
                   outfile)]
  end.

Definition buildCheckSums (W : World) (test_scriptsdir infile outfile : string)
    : result (list action) :=
  track ← snip infile ".log";
  compute_file_metrics test_scriptsdir infile outfile "md5sum"
    (Some (as_list (default EmptyString (PARAMS W !! (track +:+ "_regex_md5"))))).

Definition buildLineCounts (W : World) (test_scriptsdir infile outfile : string)
    : result (list action) :=
  track ← snip infile ".log";
  compute_file_metrics test_scriptsdir infile outfile "wc -l"
    (Some (as_list (default EmptyString (PARAMS W !! (track +:+ "_regex_linecount"))))).

Definition checkFileExistence (W : World) (test_scriptsdir infile outfile : string)
    : result (list action) :=
  track ← snip infile ".log";
  compute_file_metrics test_scriptsdir infile outfile "file"
    (Some (as_list (default EmptyString (PARAMS W !! (track +:+ "_regex_exist"))))).

(** The effect of the actions on the files of the working directory
    (a file is its list of lines).  [shell] runs a statement;
    [iotools.touch_file] creates the file, empty, when there is none and
    keeps the lines of a file that is there. *)
Variable shell : list string → gmap string (list string) → gmap string (list string).

Definition touch (fs : gmap string (list string)) (filename : string)
    : gmap string (list string) :=
  match fs !! filename with
  | Some _ => fs
  | None => <[filename := []]> fs
  end.

Definition exec_action (fs : gmap string (list string)) (a : action)
    : gmap string (list string) :=
  match a with
  | E_info _ | E_debug _ => fs
  | touch_file filename => touch fs filename
  | P_run statement => shell statement fs
  end.

Definition exec_actions (fs : gmap string (list string)) (l : list action)
    : gmap string (list string) :=
  fold_left exec_action l fs.

Definition runs_statement (a : action) : bool :=
  match a with P_run _ => true | _ => false end.

End Task.

(** ** The checksum of a file *)

(** Modelled from the spec: the helper script [cgat_file_apply.sh], which
    the statement of [compute_file_metrics] runs on every selected file to
    apply the metric, is not among the sources.  The marker of a comment
    line is [#], as the documentation of the module has it. *)
Definition comment_marker : string := "#".

(** Modelled from the spec: a comment line is a line that begins with the
    marker (the test that [cgat_file_apply.sh], which is missing, applies
    to each line). *)
Definition is_comment (line : string) : bool :=
  String.prefix comment_marker line.

(** Modelled from the spec: the normalisation of [cgat_file_apply.sh],
    which is missing; the comment lines are left out and the other lines
    are kept in their order. *)
Definition strip_comments (lines : list string) : list string :=
  List.filter (λ line, negb (is_comment line)) lines.

(** Modelled from the spec: the checksum that [cgat_file_apply.sh], which
    is missing, prints for a file; the hash [digest] ([md5sum]) is taken
    over the lines that are left once the comment lines are ignored. *)
Definition checksum (digest : list string → string) (lines : list string)
    : string :=
  digest (strip_comments lines).

(** Two files that differ only in comment lines: one is obtained from the
    other by inserting, deleting or rewriting lines that begin with the
    marker. *)
Inductive differ_in_comments : list string → list string → Prop :=
  | dic_nil : differ_in_comments [] []
  | dic_same line l1 l2 :
      differ_in_comments l1 l2 →
      differ_in_comments (line :: l1) (line :: l2)
  | dic_left line l1 l2 :
      is_comment line = true →
      differ_in_comments l1 l2 →
      differ_in_comments (line :: l1) l2
  | dic_right line l1 l2 :
      is_comment line = true →
      differ_in_comments l1 l2 →
      differ_in_comments l1 (line :: l2).

(** ** The partition in closed form *)

(** A policy that is not configured selects nothing. *)
Definition hit (p : option regex) (x : string) : bool :=
  match p with
  | Some r => r x
  | None => false
  end.

(** The cell of a column at a label. *)
Definition cell {A} (proj : row → option A) (df : DataFrame) (x : string)
    : option A :=
  rows df !! x ≫= proj.

(** The comparison under which a path is graded: the first policy that
    selects it, in the order existence, line count, checksum. *)
Inductive grade : Type := ByExistence | ByLines | ByMd5 | Ungraded.

#[global] Instance grade_eq_dec : EqDecision grade.
Proof. solve_decision. Defined.

Definition grade_of (pe pl pm : option regex) (x : string) : grade :=
  if hit pe x then ByExistence
  else if hit pl x then ByLines
  else if hit pm x then ByMd5
  else Ungraded.

Definition classify (pe pl pm : option regex) (cmp_data ref_data : DataFrame)
    : buckets :=
  let shared := index cmp_data ∩ index ref_data in
  {| shared_files := shared;
     missing := index ref_data ∖ index cmp_data;
     extra := index cmp_data ∖ index ref_data;
     same_exist := filter (λ x, grade_of pe pl pm x = ByExistence) shared;
     different_lines :=
       filter (λ x, grade_of pe pl pm x = ByLines ∧
                    cell_ne (cell nlines cmp_data x) (cell nlines ref_data x) = true)
              shared;
     same_lines :=
       filter (λ x, grade_of pe pl pm x = ByLines ∧
                    cell_eq (cell nlines cmp_data x) (cell nlines ref_data x) = true)
              shared;
     different_md5 :=
       filter (λ x, grade_of pe pl pm x = ByMd5 ∧
                    cell_ne (cell md5 cmp_data x) (cell md5 ref_data x) = true)
              shared;
     same_md5 :=
       filter (λ x, grade_of pe pl pm x = ByMd5 ∧
                    cell_eq (cell md5 cmp_data x) (cell md5 ref_data x) = true)
              shared;
     different :=
       filter (λ x, hit pe x = false ∧ hit pl x = false) shared |}.

(** The columns that the comparison reads: [nlines] when a line-count
    policy is configured, [md5] when a checksum policy is. *)
Definition has_columns (pl pm : option regex) (df : DataFrame) : Prop :=
  (is_Some pl → "nlines" ∈ columns df) ∧ (is_Some pm → "md5" ∈ columns df).

(** The set that the design document calls [unclassified], in its words:
    the shared paths that match none of the three policies.  The task has
    no variable for it. *)
Definition unclassified (pe pl pm : option regex) (cmp_data ref_data : DataFrame)
    : gset string :=
  filter (λ x, hit pe x = false ∧ hit pl x = false ∧ hit pm x = false)
         (index cmp_data ∩ index ref_data).

(** ** A regular expression engine for literal fragments

    On patterns made of letters, digits and [|], [re.search] looks for one
    of the alternatives as a substring of the path. *)

Fixpoint contains (needle hay : string) : bool :=
  String.prefix needle hay ||
  match hay with
  | EmptyString => false
  | String _ hay' => contains needle hay'
  end.

Fixpoint split_on (sep : ascii) (s : string) : list string :=
  match s with
  | EmptyString => [EmptyString]
  | String c s' =>
      if Ascii.eqb c sep then EmptyString :: split_on sep s'
      else match split_on sep s' with
           | [] => [String c EmptyString]
           | w :: ws => String c w :: ws
           end
  end.

Definition literal_compile (pattern : string) : option regex :=
  Some (λ x, existsb (λ fragment, contains fragment x) (split_on "|" pattern)).

(** [P.as_list] on a comma-separated value without blanks. *)
Definition comma_list (value : string) : list string :=
  List.filter (λ x, negb (String.eqb x EmptyString)) (split_on "," value).

(** ** Scenarios

    Concrete tables, configurations and working directories on which the
    task is evaluated. *)

Definition lit (fragment : string) : regex := λ x, contains fragment x.

Definition one_bam (value : string) : DataFrame :=
  Frame ["md5"; "nlines"]
        (list_to_map [("test_x.dir/x.bam", Row (Some value) (Some 10%Z))]).

(** A test whose tables agree, with a checksum policy and no log file. *)
Definition W_pass : World :=
  {| glob := λ _, [];
     is_complete := λ _, false;
     PARAMS := list_to_map [("test_x_regex_md5", "bam")];
     files := list_to_map [("test_x.stats", Table (one_bam "X"));
                           ("test_x.ref", Table (one_bam "X"))] |}.

(** The same test with a log file that does not end in the completion
    line. *)
Definition W_interrupted : World :=
  {| glob := λ pattern,
       if String.eqb pattern "test_x*.log" then ["test_x.log"] else [];
     is_complete := λ _, false;
     PARAMS := PARAMS W_pass;
     files := files W_pass |}.

(** A table with a path that no policy of the scenario selects. *)
Definition two_files : DataFrame :=
  Frame ["md5"; "nlines"]
        (list_to_map [("test_x.dir/a.bam", Row (Some "X") (Some 10%Z));
                      ("test_x.dir/b.bed", Row (Some "Y") (Some 20%Z))]).

(** The table [df] with the checksum of the row [x] replaced by [c]; the
    other rows and the other cells of the row stay as they are. *)
Definition set_md5 (df : DataFrame) (x : string) (c : option string)
    : DataFrame :=
  Frame (columns df) (alter (λ r, Row c (nlines r)) x (rows df)).

(** ** The other tasks of the pipeline

    The tasks around the comparison: the list of tests, the run of a test,
    the merge of the statistics and the entry point.  Besides the
    exceptions above they can end in an [IndexError], an
    [UnboundLocalError] or a [TypeError]. *)

Inductive failure : Type :=
  | Exn (e : exn)
  | IndexError (msg : string)
  | UnboundLocalError (name : string)
  | TypeError (msg : string).

Inductive outcome (A : Type) : Type :=
  | Done (a : A)
  | Failed (f : failure).
Arguments Done {A} a.
Arguments Failed {A} f.

#[global] Instance outcome_ret : MRet outcome := λ A a, Done a.
#[global] Instance outcome_bind : MBind outcome := λ A B f m,
  match m with
  | Done a => f a
  | Failed e => Failed e
  end.

Definition lift {A} (r : result A) : outcome A :=
  match r with
  | Ok a => Done a
  | Raise e => Failed (Exn e)
  end.

(** The order of [sorted] on strings, and [sorted] itself. *)
Definition string_le (s1 s2 : string) : Prop := String.leb s1 s2 = true.

#[global] Instance string_le_dec : RelDecision string_le.
Proof. intros s1 s2. unfold string_le. apply _. Defined.

Definition sorted (l : list string) : list string := merge_sort string_le l.

(** [s[n:]] *)
Fixpoint drop_chars (n : nat) (s : string) : string :=
  match n, s with
  | O, _ => s
  | S n', String _ s' => drop_chars n' s'
  | S _, EmptyString => EmptyString
  end.

(** [l[i]], an [IndexError] out of range. *)
Definition item (l : list string) (i : nat) : outcome string :=
  match l !! i with
  | Some x => Done x
  | None => Failed (IndexError "list index out of range")
  end.

(** [TESTS]: the names [test_<name>] read off the keys of the
    configuration,
    [sorted(set(["test_{}".format(x.split("_")[1]) for x in PARAMS.keys()
                 if x.startswith("test_")]))]. *)
Definition test_of_key (x : string) : outcome string :=
  name ← item (split_on "_" x) 1;
  mret ("test_" +:+ name).

Fixpoint test_names (keys : list string) : outcome (list string) :=
  match keys with
  | [] => mret []
  | x :: keys' =>
      if String.prefix "test_" x then
        t ← test_of_key x;
        ts ← test_names keys';
        mret (t :: ts)
      else test_names keys'
  end.

Definition TESTS_of (keys : list string) : outcome (list string) :=
  ts ← test_names keys;
  mret (sorted (remove_dups ts)).

Definition TESTS (W : World) : outcome (list string) :=
  TESTS_of (map_to_list (PARAMS W)).*1.

(** A call of [P.run]: the statement, with the placeholders that [P.run]
    fills in, the local variables of the caller that the statement names,
    and the keyword arguments. *)
Record run_call : Type := RunCall {
  statement : string;
  locals : list (string * string);
  ignore_errors : bool;
  job_memory : option string
}.

(** [template_statement % pipeline_target] in [run_test]. *)
Definition template_statement (pipeline_target : string) : string :=
  "cd %(track)s.dir; " +:+
  "xvfb-run -d cgatflow %(pipeline_name)s " +:+
  "%(pipeline_options)s " +:+
  "%(workflow_options)s make " +:+ pipeline_target +:+ " " +:+
  "-L ../%(outfile)s " +:+
  "-S ../%(outfile)s.stdout " +:+
  "-E ../%(outfile)s.stderr".

(** [PARAMS.get("%s_pipeline" % track, track[len("test_"):])] *)
Definition pipeline_name_of (W : World) (track : string) : string :=
  default (drop_chars (String.length "test_") track)
          (PARAMS W !! (track +:+ "_pipeline")).

Section OtherTasks.

Variable as_list : string → list string.

(** [run_test]: with one target the statement is run; with any other
    number of targets the function reaches [P.run(statement, ...)] with
    [statement] never assigned. *)
Definition run_test (W : World) (infile outfile : string)
    : outcome (list run_call) :=
  track ← lift (snip outfile ".log");
  let pipeline_name := pipeline_name_of W track in
  let pipeline_targets :=
    as_list (default "full" (PARAMS W !! (track +:+ "_target"))) in
  match pipeline_targets with
  | [pipeline_target] =>
      Done [RunCall (template_statement pipeline_target)
              [("track", track); ("pipeline_name", pipeline_name);
               ("outfile", outfile)]
              true (Some "unlimited")]
  | _ => Failed (UnboundLocalError "statement")
  end.

(** The jobs of [run_tests], from its [@files] decorator:
    [[("%s.tgz" % x, "%s.log" % x) for x in TESTS
      if x not in P.as_list(PARAMS.get("prerequisites", ""))]]. *)
Definition run_tests_jobs (W : World) : outcome (list (string * string)) :=
  tests ← TESTS W;
  let prerequisites :=
    as_list (default EmptyString (PARAMS W !! "prerequisites")) in
  mret (map (λ x, (x +:+ ".tgz", x +:+ ".log"))
            (List.filter (λ x, negb (bool_decide (x ∈ prerequisites))) tests)).

Definition run_tests (W : World) (infile outfile : string)
    : outcome (list run_call) :=
  run_test W infile outfile.

End OtherTasks.

(** [mergeFileStatistics]: the statement that merges the statistics of a
    test. *)
Definition mergeFileStatistics (infiles : list string) (outfile : string)
    : run_call :=
  let infiles := join " " (sorted infiles) in
  RunCall ("
    %(test_scriptsdir)s/merge_testing_output.sh
    %(infiles)s
    > %(outfile)s")
          [("infiles", infiles); ("outfile", outfile)]
          false None.

(** The dictionary of [P.get_params()]: strings, numbers and nested
    dictionaries. *)
Inductive value : Type :=
  | Str (s : string)
  | Int (n : Z)
  | Dict (d : gmap string value).

(** [d[key]], a [KeyError] when the key is absent. *)
Definition getitem (d : gmap string value) (key : string) : outcome value :=
  match d !! key with
  | Some v => Done v
  | None => Failed (Exn (KeyError key))
  end.

(** [v[key]] on a value: only a dictionary has keys. *)
Definition subscript (v : value) (key : string) : outcome value :=
  match v with
  | Dict d => getitem d key
  | Str _ => Failed (TypeError "string indices must be integers")
  | Int _ => Failed (TypeError "'int' object is not subscriptable")
  end.

Section Main.

(** [os.path.dirname], [os.path.join] and [str] on a value. *)
Variable dirname : string → string.
Variable path_join : string → string → string.
Variable str : value → string.

(** [main]: [argv] is [None] when the module is run as a script.  The
    result is the dictionary of parameters as [main] leaves it and the
    arguments handed to [P.main]. *)
Definition main (file : string) (params : gmap string value)
    (argv : option (list string))
    : outcome (gmap string value * option (list string)) :=
  let workflow_options : list string := [] in
  workflow_options ←
    match argv return outcome (list string) with
    | None => Failed (TypeError "argument of type 'NoneType' is not iterable")
    | Some args =>
        if bool_decide ("--local" ∈ args)
        then Done (app workflow_options ["--local"])
        else Done workflow_options
    end;
  cluster ← getitem params "cluster";
  num_jobs ← subscript cluster "num_jobs";
  let workflow_options := app workflow_options ["-p " +:+ str num_jobs] in
  (* a comparison, the result of which is dropped *)
  current ← getitem params "workflow_options";
  let params :=
    <["test_scriptsdir" :=
        Str (path_join (dirname (dirname (dirname file))) "scripts")]> params in
  mret (params, argv).

End Main.

(** The name that [TESTS] reads off a key, and the names without an
    underscore. *)
Definition name_of_key (x : string) : string :=
  "test_" +:+ default EmptyString (split_on "_" x !! 1).

Definition no_underscore (name : string) : Prop :=
  "_"%char ∉ list_ascii_of_string name.

(** * Properties *)

(** ** Series and columns *)

Lemma bind_Ok {A B} (m : result A) (f : A → result B) (b : B) :
  m ≫= f = Ok b ↔ ∃ a, m = Ok a ∧ f a = Ok b.
Proof.
  destruct m as [a|e]; simpl; split.
  - intros H. by exists a.
  - by intros (a' & [= <-] & H).
  - discriminate.
  - by intros (a' & ? & _).
Qed.

Lemma dom_select {A} (s : gmap string (option A)) (labels : gset string) :
  labels ⊆ dom s → dom (filter (λ kv, kv.1 ∈ labels) s) = labels.
Proof.
  intros Hsub. apply dom_filter_L. intros i. split.
  - intros Hi. destruct (s !! i) as [c|] eqn:E.
    + by exists c.
    + apply Hsub, elem_of_dom in Hi. rewrite E in Hi. by destruct Hi.
  - by intros (c & _ & Hi).
Qed.

Lemma lookup_select {A} (s : gmap string (option A)) (labels : gset string) x :
  x ∈ labels → filter (λ kv, kv.1 ∈ labels) s !! x = s !! x.
Proof.
  intros Hx. destruct (s !! x) as [c|] eqn:E.
  - by apply map_lookup_filter_Some.
  - apply map_lookup_filter_None. by left.
Qed.

Lemma lookup_column {A} (proj : row → option A) (df : DataFrame) x :
  x ∈ index df → (proj <$> rows df) !! x = Some (cell proj df x).
Proof.
  unfold index, cell. intros [r Hr]%elem_of_dom.
  by rewrite lookup_fmap, Hr.
Qed.

Lemma select_inv {A} (s t : gmap string (option A)) labels :
  select s labels = Ok t → labels ⊆ dom s.
Proof. unfold select. case_bool_decide; [done | discriminate]. Qed.

Lemma column_inv {A} name (proj : row → option A) df s :
  column name proj df = Ok s → name ∈ columns df ∧ s = proj <$> rows df.
Proof. unfold column. case_bool_decide; [by intros [= <-] | discriminate]. Qed.

(** The labels at which the comparison of a column holds. *)
Lemma compare_column_spec {A} name (proj : row → option A) op cmp_data ref_data
    (labels : gset string) :
  name ∈ columns cmp_data → name ∈ columns ref_data →
  labels ⊆ index cmp_data ∩ index ref_data →
  compare_column name proj op cmp_data ref_data labels =
    Ok (filter (λ x, op (cell proj cmp_data x) (cell proj ref_data x) = true)
               labels).
Proof.
  intros Hc Hr Hsub.
  assert (labels ⊆ dom (proj <$> rows cmp_data)) as Hsc.
  { rewrite dom_fmap_L. unfold index in Hsub. set_solver. }
  assert (labels ⊆ dom (proj <$> rows ref_data)) as Hsr.
  { rewrite dom_fmap_L. unfold index in Hsub. set_solver. }
  unfold compare_column, column, select, series_cmp.
  rewrite !bool_decide_eq_true_2 by done. simpl.
  rewrite !bool_decide_eq_true_2 by done. simpl.
  rewrite bool_decide_eq_true_2 by (by rewrite !dom_select). simpl.
  f_equal. apply set_eq. intros x. unfold true_labels.
  rewrite elem_of_dom, elem_of_filter. split.
  - intros [b [Hb Ht]%map_lookup_filter_Some]. simpl in Ht. subst b.
    apply map_lookup_zip_with_Some in Hb as (c1 & c2 & Hop & H1 & H2).
    apply map_lookup_filter_Some in H1 as [H1 Hx]. simpl in Hx.
    apply map_lookup_filter_Some in H2 as [H2 _].
    rewrite lookup_column in H1 by set_solver.
    rewrite lookup_column in H2 by set_solver.
    by simplify_eq.
  - intros [Hop Hx]. exists true. apply map_lookup_filter_Some. split; [|done].
    apply map_lookup_zip_with_Some.
    exists (cell proj cmp_data x), (cell proj ref_data x).
    rewrite !lookup_select by done.
    by rewrite !lookup_column by set_solver.
Qed.

Lemma compare_column_inv {A} name (proj : row → option A) op cmp_data ref_data
    (labels X : gset string) :
  compare_column name proj op cmp_data ref_data labels = Ok X →
  name ∈ columns cmp_data ∧ name ∈ columns ref_data.
Proof.
  unfold compare_column.
  intros (c & [Hc _]%column_inv & H)%bind_Ok.
  apply bind_Ok in H as (cs & _ & H).
  by apply bind_Ok in H as (r & [Hr _]%column_inv & _).
Qed.

(** ** The task computes the closed form *)

Lemma matching_subseteq r (X : gset string) : matching r X ⊆ X.
Proof. unfold matching. set_solver. Qed.

Lemma not_matching_subseteq r (X : gset string) : not_matching r X ⊆ X.
Proof. unfold not_matching. set_solver. Qed.

Ltac bucket_eq :=
  apply set_eq; intros ?;
  unfold matching, not_matching, grade_of, hit;
  set_unfold;
  repeat match goal with
         | |- context [?r ?x = true] =>
             lazymatch type of r with
             | regex => destruct (r x) eqn:?
             end
         | |- context [if ?r ?x then _ else _] =>
             lazymatch type of r with
             | regex => destruct (r x) eqn:?
             end
         end;
  naive_solver.

Lemma reconcile_classify pe pl pm cmp_data ref_data :
  has_columns pl pm cmp_data → has_columns pl pm ref_data →
  reconcile pe pl pm cmp_data ref_data = Ok (classify pe pl pm cmp_data ref_data).
Proof.
  intros [Hcl Hcm] [Hrl Hrm].
  unfold reconcile.
  destruct pe as [re|], pl as [rl|], pm as [rm|]; simpl;
    repeat (rewrite compare_column_spec;
            [ simpl
            | by (apply Hcl || apply Hcm)
            | by (apply Hrl || apply Hrm)
            | unfold matching, not_matching; set_solver ]);
    unfold classify; f_equal; f_equal; try reflexivity; bucket_eq.
Qed.

Lemma reconcile_inv pe pl pm cmp_data ref_data b :
  reconcile pe pl pm cmp_data ref_data = Ok b →
  has_columns pl pm cmp_data ∧ has_columns pl pm ref_data ∧
  b = classify pe pl pm cmp_data ref_data.
Proof.
  intros H.
  assert (has_columns pl pm cmp_data ∧ has_columns pl pm ref_data) as [Hc Hr].
  { unfold reconcile in H.
    destruct (match pe with Some r => _ | None => _ end) as [se d0].
    apply bind_Ok in H as ([[dl d1] sl] & Hl & H).
    apply bind_Ok in H as ([dm sm] & Hm & _).
    assert (is_Some pl → "nlines" ∈ columns cmp_data ∧ "nlines" ∈ columns ref_data)
      as Hnl.
    { intros [r ->]. apply bind_Ok in Hl as (X & HX & _).
      by apply compare_column_inv in HX. }
    assert (is_Some pm → "md5" ∈ columns cmp_data ∧ "md5" ∈ columns ref_data)
      as Hmd.
    { intros [r ->]. apply bind_Ok in Hm as (X & HX & _).
      by apply compare_column_inv in HX. }
    unfold has_columns. naive_solver. }
  split_and!; [done..|].
  rewrite reconcile_classify in H by done. by injection H.
Qed.

(** ** The loop of the task *)

Lemma log_check_forallb W track :
  log_check W track = forallb (is_complete W) (glob W (track +:+ "*.log")).
Proof.
  unfold log_check.
  assert (∀ l acc, fold_left (λ jf logfile, jf && is_complete W logfile) l acc
                   = acc && forallb (is_complete W) l) as H.
  { induction l as [|logfile l IH]; intros acc; simpl.
    - by rewrite andb_true_r.
    - by rewrite IH, andb_assoc. }
  by rewrite H.
Qed.

Lemma size_zero (X : gset string) : size X = 0 ↔ X = ∅.
Proof. rewrite size_empty_iff. by unfold_leibniz. Qed.

Lemma status_of_OK job_finished b :
  status_of job_finished b = OK ↔
  job_finished = true ∧ missing b = ∅ ∧ extra b = ∅ ∧
  different_md5 b = ∅ ∧ different_lines b = ∅.
Proof.
  unfold status_of. rewrite <- !size_zero.
  destruct job_finished; simpl.
  - destruct (Nat.eqb_spec
      (size (missing b) + size (extra b) + size (different_md5 b)
       + size (different_lines b)) 0) as [E|E]; split; try done.
    + intros _. split_and!; [done|lia..].
    + intros (_ & ? & ? & ? & ?). lia.
  - split; [done | by intros [? _]].
Qed.

Lemma status_of_FAIL job_finished b :
  status_of job_finished b = FAIL ↔ status_of job_finished b ≠ OK.
Proof. destruct (status_of job_finished b); naive_solver. Qed.

Section TaskProperties.

Variable as_list : string → list string.
Variable re_compile : string → option regex.

Lemma compare_one_inv W infile v :
  compare_one as_list re_compile W infile = Ok v →
  ∃ track pe pl pm cmp_data ref_data b,
    snip infile ".stats" = Ok track ∧
    policy as_list re_compile W (track +:+ "_regex_exist") = Ok pe ∧
    policy as_list re_compile W (track +:+ "_regex_linecount") = Ok pl ∧
    policy as_list re_compile W (track +:+ "_regex_md5") = Ok pm ∧
    files W !! infile = Some (Table cmp_data) ∧
    files W !! (track +:+ ".ref") = Some (Table ref_data) ∧
    reconcile pe pl pm cmp_data ref_data = Ok b ∧
    v = make_verdict track (log_check W track) cmp_data ref_data b.
Proof.
  unfold compare_one. intros H.
  apply bind_Ok in H as (track & Htrack & H).
  apply bind_Ok in H as (pe & Hpe & H).
  apply bind_Ok in H as (pl & Hpl & H).
  apply bind_Ok in H as (pm & Hpm & H).
  destruct (path_exists W (track +:+ ".ref")) eqn:Hex; simpl in H; [|done].
  apply bind_Ok in H as (cmp_data & Hcmp & H).
  apply bind_Ok in H as (ref_data & Href & H).
  apply bind_Ok in H as (b & Hb & [= <-]).
  exists track, pe, pl, pm, cmp_data, ref_data, b.
  split_and!; try done.
  - unfold read_csv in Hcmp.
    destruct (files W !! infile) as [[?|]|]; by simplify_eq.
  - unfold read_csv in Href.
    destruct (files W !! (track +:+ ".ref")) as [[?|]|]; by simplify_eq.
Qed.

Lemma verdict_status W infile v :
  compare_one as_list re_compile W infile = Ok v →
  col_status v = OK ↔
  col_job_finished v = true ∧
  col_files_missing v = ∅ ∧ col_files_extra v = ∅ ∧
  col_files_different_md5 v = ∅ ∧ col_files_different_lines v = ∅.
Proof.
  intros (track & pe & pl & pm & c & r & b & _ & _ & _ & _ & _ & _ & _ & ->)
    %compare_one_inv.
  simpl. apply status_of_OK.
Qed.

Lemma verdict_job_finished W infile track v :
  snip infile ".stats" = Ok track →
  compare_one as_list re_compile W infile = Ok v →
  col_job_finished v = log_check W track.
Proof.
  intros Htrack (track' & pe & pl & pm & c & r & b & Ht & _ & _ & _ & _ & _ & _ & ->)
    %compare_one_inv.
  rewrite Htrack in Ht. by injection Ht as <-.
Qed.


(** C10: the flag [job_finished] of a test is the conjunction of
    [is_complete] over the files that [glob] finds for [<track>*.log];
    with no such file it is true. *)
Theorem job_finished_conjunction W infile track v :
  snip infile ".stats" = Ok track →
  compare_one as_list re_compile W infile = Ok v →
  col_job_finished v = forallb (is_complete W) (glob W (track +:+ "*.log")) ∧
  (glob W (track +:+ "*.log") = [] → col_job_finished v = true).
Proof.
  intros Htrack Hv.
  rewrite (verdict_job_finished _ _ _ _ Htrack Hv), log_check_forallb.
  split; [done|]. by intros ->.
Qed.

(** C5, as amended: a test with a log file that [is_complete] rejects has
    [job_finished] false and status FAIL, whatever the comparison of the
    files gives. *)
Theorem incomplete_log_fails W infile track logfile v :
  snip infile ".stats" = Ok track →
  logfile ∈ glob W (track +:+ "*.log") →
  is_complete W logfile = false →
  compare_one as_list re_compile W infile = Ok v →
  col_job_finished v = false ∧ col_status v = FAIL.
Proof.
  intros Htrack Hin Hlog Hv.
  assert (col_job_finished v = false) as Hf.
  { rewrite (verdict_job_finished _ _ _ _ Htrack Hv), log_check_forallb.
    apply not_true_is_false. intros Hall.
    rewrite forallb_forall in Hall.
    apply list_elem_of_In, Hall in Hin. congruence. }
  split; [done|].
  pose proof (verdict_status _ _ _ Hv) as Hst.
  destruct (col_status v); [|done].
  destruct Hst as [Hst _]. destruct (Hst eq_refl) as [Htrue _]. congruence.
Qed.

End TaskProperties.


Lemma job_finished_conjunction_witness :
  ∃ v, compare_one comma_list literal_compile W_interrupted "test_x.stats" = Ok v ∧
       col_job_finished v
         = forallb (is_complete W_interrupted) (glob W_interrupted "test_x*.log").
Proof.
  eexists. split.
  - vm_compute. reflexivity.
  - apply (job_finished_conjunction comma_list literal_compile W_interrupted
             "test_x.stats" "test_x"); vm_compute; reflexivity.
Defined.

Lemma incomplete_log_fails_witness :
  ∃ v, compare_one comma_list literal_compile W_interrupted "test_x.stats" = Ok v ∧
       col_job_finished v = false ∧ col_status v = FAIL.
Proof.
  eexists. split.
  - vm_compute. reflexivity.
  - apply (incomplete_log_fails comma_list literal_compile W_interrupted
             "test_x.stats" "test_x" "test_x.log").
    + vm_compute. reflexivity.
    + vm_compute. apply list_elem_of_here.
    + reflexivity.
    + vm_compute. reflexivity.
Defined.

(** C5, as stated, fails: the test of [W_pass] has no log file at all, and
    the task reports it as finished, with status OK. *)
Lemma absent_log_counts_as_finished :
  glob W_pass "test_x*.log" = [] ∧
  ∃ v, compare_one comma_list literal_compile W_pass "test_x.stats" = Ok v ∧
       col_job_finished v = true ∧ col_status v = OK.
Proof.
  split; [reflexivity|]. eexists. split; [vm_compute; reflexivity|].
  split; reflexivity.
Qed.

(** ** A missing reference *)

Section MissingReference.

Variable as_list : string → list string.
Variable re_compile : string → option regex.

Lemma policy_raises W key e :
  policy as_list re_compile W key = Raise e → ∃ pattern, e = ReError pattern.
Proof.
  unfold policy. intros H.
  destruct (PARAMS W !! key) as [value|]; [|done].
  destruct (truthy value); [|done].
  destruct (re_compile _); [done|].
  injection H as <-. eauto.
Qed.

Lemma compare_one_no_reference W infile track :
  snip infile ".stats" = Ok track →
  path_exists W (track +:+ ".ref") = false →
  ∃ e, compare_one as_list re_compile W infile = Raise e ∧
       (e = ValueError ("no reference data defined for " +:+ track) ∨
        ∃ pattern, e = ReError pattern).
Proof.
  intros Htrack Hex. unfold compare_one. rewrite Htrack. simpl.
  destruct (policy _ _ W (track +:+ "_regex_exist")) as [pe|e] eqn:He; simpl;
    [|apply policy_raises in He; eauto].
  destruct (policy _ _ W (track +:+ "_regex_linecount")) as [pl|e] eqn:Hl; simpl;
    [|apply policy_raises in Hl; eauto].
  destruct (policy _ _ W (track +:+ "_regex_md5")) as [pm|e] eqn:Hm; simpl;
    [|apply policy_raises in Hm; eauto].
  rewrite Hex. simpl. eauto.
Qed.

Lemma compare_loop_raise W before infile after vs e :
  Forall2 (λ f v, compare_one as_list re_compile W f = Ok v) before vs →
  compare_one as_list re_compile W infile = Raise e →
  compare_loop as_list re_compile W (before ++ infile :: after) = (vs, Some e).
Proof.
  intros Hbefore Hraise.
  induction Hbefore as [|f v before vs Hf _ IH]; simpl.
  - by rewrite Hraise.
  - by rewrite Hf, IH.
Qed.

(** C4, as amended: when the reference file of a test is absent the
    task raises at that test, with the [ValueError] for the missing
    reference (or with the error of a policy that does not compile,
    which is met first).  No line is written for this test, and none for
    the tests that come after it in the list: the output holds the
    lines of the tests before it and nothing else. *)
Theorem missing_reference_ends_task W before infile after track vs :
  snip infile ".stats" = Ok track →
  path_exists W (track +:+ ".ref") = false →
  Forall2 (λ f v, compare_one as_list re_compile W f = Ok v) before vs →
  ∃ e, compareCheckSums as_list re_compile W (before ++ infile :: after)
         = Output header vs (Some e) ∧
       (e = ValueError ("no reference data defined for " +:+ track) ∨
        ∃ pattern, e = ReError pattern).
Proof.
  intros Htrack Hex Hbefore.
  destruct (compare_one_no_reference W infile track Htrack Hex)
    as (e & Hraise & He).
  exists e. split; [|done].
  unfold compareCheckSums.
  by rewrite (compare_loop_raise _ _ _ _ _ _ Hbefore Hraise).
Qed.

End MissingReference.

(** C4, as stated, fails: [test_y] has no reference file and [test_x] is
    in order, yet a task that is given both writes no line at all, the
    one of [test_x] included. *)
Lemma missing_reference_aborts_siblings :
  path_exists W_pass "test_y.ref" = false ∧
  is_ok (compare_one comma_list literal_compile W_pass "test_x.stats") = true ∧
  compareCheckSums comma_list literal_compile W_pass
      ["test_y.stats"; "test_x.stats"]
    = Output header []
        (Some (ValueError "no reference data defined for test_y")).
Proof. split_and!; vm_compute; reflexivity. Qed.

Lemma missing_reference_ends_task_witness :
  ∃ v e,
    compare_one comma_list literal_compile W_pass "test_x.stats" = Ok v ∧
    compareCheckSums comma_list literal_compile W_pass
        (["test_x.stats"] ++ "test_y.stats" :: ["test_x.stats"])
      = Output header [v] (Some e) ∧
    (e = ValueError ("no reference data defined for " +:+ "test_y") ∨
     ∃ pattern, e = ReError pattern).
Proof.
  assert (∃ v, compare_one comma_list literal_compile W_pass "test_x.stats" = Ok v)
    as [v Hx] by (eexists; vm_compute; reflexivity).
  destruct (missing_reference_ends_task comma_list literal_compile W_pass
              ["test_x.stats"] "test_y.stats" ["test_x.stats"] "test_y" [v])
    as (e & Hout & He).
  - vm_compute. reflexivity.
  - vm_compute. reflexivity.
  - constructor; [exact Hx | constructor].
  - exists v, e. split_and!; [exact Hx | exact Hout | exact He].
Defined.

(** ** The partition of the shared files *)

Lemma cell_eq_ne {A} `{EqDecision A} (a b : option A) :
  cell_eq a b = negb (cell_ne a b).
Proof. destruct a, b; simpl; by rewrite ?negb_involutive. Qed.

Lemma cell_ne_false {A} `{EqDecision A} (a b : option A) :
  cell_ne a b = false ↔ ∃ v, a = Some v ∧ b = Some v.
Proof.
  destruct a as [x|], b as [y|]; simpl; try (split; [done | by intros (? & ? & ?)]).
  rewrite negb_false_iff, bool_decide_eq_true. naive_solver.
Qed.

Lemma grade_of_cases pe pl pm x :
  (grade_of pe pl pm x = ByExistence ↔ hit pe x = true) ∧
  (grade_of pe pl pm x = ByLines ↔ hit pe x = false ∧ hit pl x = true) ∧
  (grade_of pe pl pm x = ByMd5 ↔
     hit pe x = false ∧ hit pl x = false ∧ hit pm x = true) ∧
  (grade_of pe pl pm x = Ungraded ↔
     hit pe x = false ∧ hit pl x = false ∧ hit pm x = false).
Proof.
  unfold grade_of.
  destruct (hit pe x), (hit pl x), (hit pm x); naive_solver.
Qed.

(** Membership in the sets of the closed form. *)
Lemma classify_elem pe pl pm cmp_data ref_data x :
  let b := classify pe pl pm cmp_data ref_data in
  let dl := cell_ne (cell nlines cmp_data x) (cell nlines ref_data x) in
  let dm := cell_ne (cell md5 cmp_data x) (cell md5 ref_data x) in
  (x ∈ same_exist b ↔ x ∈ shared_files b ∧ hit pe x = true) ∧
  (x ∈ different_lines b ↔
     x ∈ shared_files b ∧ hit pe x = false ∧ hit pl x = true ∧ dl = true) ∧
  (x ∈ same_lines b ↔
     x ∈ shared_files b ∧ hit pe x = false ∧ hit pl x = true ∧ dl = false) ∧
  (x ∈ different_md5 b ↔
     x ∈ shared_files b ∧ hit pe x = false ∧ hit pl x = false ∧
     hit pm x = true ∧ dm = true) ∧
  (x ∈ same_md5 b ↔
     x ∈ shared_files b ∧ hit pe x = false ∧ hit pl x = false ∧
     hit pm x = true ∧ dm = false) ∧
  (x ∈ unclassified pe pl pm cmp_data ref_data ↔
     x ∈ shared_files b ∧ hit pe x = false ∧ hit pl x = false ∧
     hit pm x = false).
Proof.
  unfold classify, unclassified. simpl.
  rewrite !elem_of_filter, !cell_eq_ne.
  destruct (grade_of_cases pe pl pm x) as (Ge & Gl & Gm & _).
  rewrite Ge, Gl, Gm.
  destruct (cell_ne (cell nlines cmp_data x) (cell nlines ref_data x));
    destruct (cell_ne (cell md5 cmp_data x) (cell md5 ref_data x));
    simpl; intuition congruence.
Qed.

(** C2: the policies are applied in the order existence, line count,
    checksum, and a shared path is graded under the first policy that
    selects it only.  In particular a path that the existence policy and
    the checksum policy both select is in [same_exist], and in neither
    [same_md5] nor [different_md5]. *)
Theorem policies_in_order pe pl pm cmp_data ref_data b x :
  reconcile pe pl pm cmp_data ref_data = Ok b →
  x ∈ shared_files b →
  (hit pe x = true →
     x ∈ same_exist b ∧
     x ∉ same_lines b ∪ different_lines b ∪ same_md5 b ∪ different_md5 b) ∧
  (hit pe x = false → hit pl x = true →
     x ∈ same_lines b ∪ different_lines b ∧
     x ∉ same_exist b ∪ same_md5 b ∪ different_md5 b) ∧
  (hit pe x = false → hit pl x = false → hit pm x = true →
     x ∈ same_md5 b ∪ different_md5 b ∧
     x ∉ same_exist b ∪ same_lines b ∪ different_lines b) ∧
  (hit pe x = true → hit pm x = true →
     x ∈ same_exist b ∧ (x ∉ same_md5 b) ∧ (x ∉ different_md5 b)).
Proof.
  intros (_ & _ & ->)%reconcile_inv Hx.
  destruct (classify_elem pe pl pm cmp_data ref_data x)
    as (He & Hdl & Hsl & Hdm & Hsm & _).
  rewrite !elem_of_union, He, Hdl, Hsl, Hdm, Hsm.
  destruct (cell_ne (cell nlines cmp_data x) (cell nlines ref_data x));
    destruct (cell_ne (cell md5 cmp_data x) (cell md5 ref_data x));
    intuition congruence.
Qed.

Lemma policies_in_order_witness :
  ∃ b, reconcile (Some (lit "bam")) None (Some (lit "bam"))
         (one_bam "Z") (one_bam "X") = Ok b ∧
       "test_x.dir/x.bam" ∈ same_exist b ∧
       ("test_x.dir/x.bam" ∉ same_md5 b) ∧
       ("test_x.dir/x.bam" ∉ different_md5 b).
Proof.
  assert (∃ b, reconcile (Some (lit "bam")) None (Some (lit "bam"))
                 (one_bam "Z") (one_bam "X") = Ok b) as [b Hb]
    by (eexists; vm_compute; reflexivity).
  exists b. split; [exact Hb|].
  apply (policies_in_order (Some (lit "bam")) None (Some (lit "bam"))
           (one_bam "Z") (one_bam "X") b "test_x.dir/x.bam").
  - exact Hb.
  - destruct (reconcile_inv _ _ _ _ _ _ Hb) as (_ & _ & ->). simpl.
    apply (bool_decide_unpack _). vm_compute. exact I.
  - reflexivity.
  - reflexivity.
Defined.

(** The set [unclassified] is what is left of the working set of the task
    once the files graded by checksum are taken out. *)
Lemma unclassified_working_set pe pl pm cmp_data ref_data b :
  reconcile pe pl pm cmp_data ref_data = Ok b →
  unclassified pe pl pm cmp_data ref_data
    = different b ∖ (same_md5 b ∪ different_md5 b).
Proof.
  intros (_ & _ & ->)%reconcile_inv. apply set_eq. intros x.
  destruct (classify_elem pe pl pm cmp_data ref_data x)
    as (_ & _ & _ & Hdm & Hsm & Hu).
  rewrite elem_of_difference, elem_of_union, Hu, Hdm, Hsm.
  unfold classify at 4. simpl. rewrite elem_of_filter.
  destruct (hit pm x);
    destruct (cell_ne (cell md5 cmp_data x) (cell md5 ref_data x));
    intuition congruence.
Qed.

(** C3: the shared paths are the paths present in both tables; they are
    the union of [same_exist], [same_lines], [different_lines], [same_md5],
    [different_md5] and [unclassified], and these six sets are pairwise
    disjoint. *)
Theorem partition_of_shared pe pl pm cmp_data ref_data b :
  reconcile pe pl pm cmp_data ref_data = Ok b →
  let u := unclassified pe pl pm cmp_data ref_data in
  shared_files b = index cmp_data ∩ index ref_data ∧
  shared_files b = same_exist b ∪ same_lines b ∪ different_lines b ∪
                   same_md5 b ∪ different_md5 b ∪ u ∧
  same_exist b ## same_lines b ∧ same_exist b ## different_lines b ∧
  same_exist b ## same_md5 b ∧ same_exist b ## different_md5 b ∧
  same_exist b ## u ∧
  same_lines b ## different_lines b ∧ same_lines b ## same_md5 b ∧
  same_lines b ## different_md5 b ∧ same_lines b ## u ∧
  different_lines b ## same_md5 b ∧ different_lines b ## different_md5 b ∧
  different_lines b ## u ∧
  same_md5 b ## different_md5 b ∧ same_md5 b ## u ∧
  different_md5 b ## u.
Proof.
  intros (_ & _ & ->)%reconcile_inv. simpl.
  split; [reflexivity|].
  assert (∀ X Y : gset string, (∀ x, x ∈ X → x ∈ Y → False) → X ## Y) as Hdisj.
  { intros X Y H. apply elem_of_disjoint. exact H. }
  split_and!; [apply set_eq; intros x | apply Hdisj; intros x ..];
    destruct (classify_elem pe pl pm cmp_data ref_data x)
      as (He & Hdl & Hsl & Hdm & Hsm & Hu);
    [|rewrite ?He, ?Hdl, ?Hsl, ?Hdm, ?Hsm, ?Hu; intuition congruence..].
  rewrite !elem_of_union. split.
  - intros Hx.
    destruct (hit pe x) eqn:Ee; [do 5 left; by apply He|].
    destruct (hit pl x) eqn:El.
    { destruct (cell_ne (cell nlines cmp_data x) (cell nlines ref_data x)) eqn:Ed.
      - do 3 left. right. by apply Hdl.
      - do 4 left. right. by apply Hsl. }
    destruct (hit pm x) eqn:Em; [|right; by apply Hu].
    destruct (cell_ne (cell md5 cmp_data x) (cell md5 ref_data x)) eqn:Ed.
    + left. right. by apply Hdm.
    + do 2 left. right. by apply Hsm.
  - intros [[[[[H|H]|H]|H]|H]|H];
      [apply He in H | apply Hsl in H | apply Hdl in H
      | apply Hsm in H | apply Hdm in H | apply Hu in H]; apply H.
Qed.

Lemma partition_of_shared_witness :
  ∃ b, reconcile None None (Some (lit "bam")) two_files two_files = Ok b ∧
       shared_files b = same_exist b ∪ same_lines b ∪ different_lines b ∪
                        same_md5 b ∪ different_md5 b ∪
                        unclassified None None (Some (lit "bam"))
                          two_files two_files.
Proof.
  assert (∃ b, reconcile None None (Some (lit "bam")) two_files two_files = Ok b)
    as [b Hb] by (eexists; vm_compute; reflexivity).
  exists b. split; [exact Hb|].
  apply (partition_of_shared None None (Some (lit "bam")) two_files two_files b Hb).
Defined.

(** ** A table against itself *)

Lemma cell_ne_same {A} `{EqDecision A} (a : option A) :
  cell_ne a a = true ↔ a = None.
Proof.
  destruct a as [v|]; simpl; [|done].
  rewrite bool_decide_eq_true_2 by done. simpl. split; discriminate.
Qed.

(** C7, as stated, fails: with a checksum policy for [bam] only, the path
    [b.bed] of [two_files] is shared when the table is compared with
    itself, and it is in none of the [same_*] sets. *)
Lemma self_comparison_leaves_unclassified :
  ∃ b, reconcile None None (Some (lit "bam")) two_files two_files = Ok b ∧
       "test_x.dir/b.bed" ∈ shared_files b ∧
       "test_x.dir/b.bed" ∉ same_exist b ∪ same_lines b ∪ same_md5 b.
Proof.
  exists (classify None None (Some (lit "bam")) two_files two_files).
  split; [apply reconcile_classify; split; intros _; set_solver|].
  split.
  - apply (bool_decide_unpack _). vm_compute. exact I.
  - intros H. apply (bool_decide_pack _) in H. vm_compute in H. exact H.
Qed.

(** C7, as amended: for a table that has the columns which the configured
    policies read, the comparison with itself succeeds, nothing is missing
    or extra, and every path is shared.  A path selected by a policy is in
    the [same_*] set of the policy that grades it, provided the cell that
    this policy compares is not empty; the [different_*] sets hold no path
    whose compared cell is present.  A path that no policy selects is in
    none of the [same_*] sets. *)
Theorem self_comparison pe pl pm T :
  has_columns pl pm T →
  ∃ b, reconcile pe pl pm T T = Ok b ∧
       missing b = ∅ ∧ extra b = ∅ ∧ shared_files b = index T ∧
       (∀ x, x ∈ index T → hit pe x = true → x ∈ same_exist b) ∧
       (∀ x, x ∈ index T → hit pe x = false → hit pl x = true →
             is_Some (cell nlines T x) → x ∈ same_lines b) ∧
       (∀ x, x ∈ index T → hit pe x = false → hit pl x = false →
             hit pm x = true → is_Some (cell md5 T x) → x ∈ same_md5 b) ∧
       (∀ x, x ∈ different_lines b → cell nlines T x = None) ∧
       (∀ x, x ∈ different_md5 b → cell md5 T x = None) ∧
       (∀ x, hit pe x = false → hit pl x = false → hit pm x = false →
             x ∉ same_exist b ∪ same_lines b ∪ same_md5 b).
Proof.
  intros Hcols. exists (classify pe pl pm T T).
  split; [by apply reconcile_classify|].
  assert (shared_files (classify pe pl pm T T) = index T) as Hshared
    by (simpl; set_solver).
  split_and!; try (simpl; set_solver).
  - intros x Hx Hpe. apply classify_elem. by rewrite Hshared.
  - intros x Hx Hpe Hpl [v Hv]. apply classify_elem. rewrite Hshared.
    split_and!; try done. apply not_true_iff_false.
    rewrite cell_ne_same, Hv. discriminate.
  - intros x Hx Hpe Hpl Hpm [v Hv]. apply classify_elem. rewrite Hshared.
    split_and!; try done. apply not_true_iff_false.
    rewrite cell_ne_same, Hv. discriminate.
  - intros x Hx.
    destruct (classify_elem pe pl pm T T x) as (_ & Hdl & _).
    apply Hdl in Hx as (_ & _ & _ & Hd). by apply cell_ne_same.
  - intros x Hx.
    destruct (classify_elem pe pl pm T T x) as (_ & _ & _ & Hdm & _).
    apply Hdm in Hx as (_ & _ & _ & _ & Hd). by apply cell_ne_same.
  - intros x Hpe Hpl Hpm.
    destruct (classify_elem pe pl pm T T x) as (He & _ & Hsl & _ & Hsm & _).
    rewrite !elem_of_union, He, Hsl, Hsm. intuition congruence.
Qed.

Lemma self_comparison_witness :
  ∃ b, reconcile None None (Some (lit "bam")) two_files two_files = Ok b ∧
       missing b = ∅ ∧ extra b = ∅ ∧ shared_files b = index two_files.
Proof.
  destruct (self_comparison None None (Some (lit "bam")) two_files)
    as (b & Hb & Hm & He & Hs & _).
  - split; intros _; vm_compute; set_solver.
  - exists b. split_and!; assumption.
Defined.

(** ** One checksum changed *)

Lemma index_set_md5 df x c : index (set_md5 df x c) = index df.
Proof. unfold index, set_md5. simpl. apply dom_alter_L. Qed.

Lemma cell_set_md5 df x c :
  x ∈ index df → cell md5 (set_md5 df x c) x = c.
Proof.
  unfold index, cell, set_md5. simpl. intros [r Hr]%elem_of_dom.
  by rewrite lookup_alter_eq, Hr.
Qed.

Lemma has_columns_set_md5 pl pm df x c :
  has_columns pl pm df → has_columns pl pm (set_md5 df x c).
Proof. done. Qed.

(** A graded checksum that disagrees puts the path in [different_md5] and
    makes the status FAIL. *)
Lemma differing_md5_fails pe pl pm cmp_data ref_data job_finished x :
  x ∈ index cmp_data ∩ index ref_data →
  hit pe x = false → hit pl x = false → hit pm x = true →
  cell_ne (cell md5 cmp_data x) (cell md5 ref_data x) = true →
  let b := classify pe pl pm cmp_data ref_data in
  status_of job_finished b = FAIL ∧ x ∈ different_md5 b.
Proof.
  intros Hx Hpe Hpl Hpm Hne. simpl.
  assert (x ∈ different_md5 (classify pe pl pm cmp_data ref_data)) as Hin.
  { by apply classify_elem. }
  split; [|done].
  destruct (status_of job_finished _) eqn:Hst; [|done].
  apply status_of_OK in Hst as (_ & _ & _ & Hempty & _).
  rewrite Hempty in Hin. set_solver.
Qed.

(** C8, as stated, fails: the path is selected by the checksum policy and
    by the existence policy; the pair has status OK, and it keeps status OK
    when the checksum of the path is changed in the current table, with
    [different_md5] empty. *)
Lemma changed_md5_under_existence_policy :
  let pe := Some (lit "bam") in
  let pm := Some (lit "bam") in
  let x := "test_x.dir/x.bam" in
  hit pm x = true ∧
  reconcile pe None pm (one_bam "X") (one_bam "X")
    = Ok (classify pe None pm (one_bam "X") (one_bam "X")) ∧
  x ∈ shared_files (classify pe None pm (one_bam "X") (one_bam "X")) ∧
  status_of true (classify pe None pm (one_bam "X") (one_bam "X")) = OK ∧
  set_md5 (one_bam "X") x (Some "Z") = one_bam "Z" ∧
  reconcile pe None pm (one_bam "Z") (one_bam "X")
    = Ok (classify pe None pm (one_bam "Z") (one_bam "X")) ∧
  status_of true (classify pe None pm (one_bam "Z") (one_bam "X")) = OK ∧
  different_md5 (classify pe None pm (one_bam "Z") (one_bam "X")) = ∅.
Proof.
  simpl. split_and!; vm_compute; reflexivity.
Qed.

(** C8, as amended: take a pair with status OK and a shared path that is
    graded under the checksum policy, that is, selected by it and by
    neither the existence nor the line-count policy.  Replacing the
    checksum of this path by another value, in the current table or in
    the reference, gives status FAIL, with the path in [different_md5]. *)
Theorem changed_md5_fails pe pl pm cmp_data ref_data job_finished b x c :
  reconcile pe pl pm cmp_data ref_data = Ok b →
  status_of job_finished b = OK →
  x ∈ shared_files b →
  hit pe x = false → hit pl x = false → hit pm x = true →
  c ≠ cell md5 cmp_data x →
  (∃ b', reconcile pe pl pm (set_md5 cmp_data x c) ref_data = Ok b' ∧
         status_of job_finished b' = FAIL ∧ x ∈ different_md5 b') ∧
  (∃ b', reconcile pe pl pm cmp_data (set_md5 ref_data x c) = Ok b' ∧
         status_of job_finished b' = FAIL ∧ x ∈ different_md5 b').
Proof.
  intros (Hcc & Hcr & ->)%reconcile_inv Hst Hx Hpe Hpl Hpm Hc.
  simpl in Hx.
  assert (∃ v, cell md5 cmp_data x = Some v ∧ cell md5 ref_data x = Some v)
    as (v & Hv1 & Hv2).
  { apply cell_ne_false. apply not_true_iff_false. intros Hne.
    apply status_of_OK in Hst as (_ & _ & _ & Hempty & _).
    assert (x ∈ different_md5 (classify pe pl pm cmp_data ref_data)) as Hin
      by (by apply classify_elem).
    rewrite Hempty in Hin. set_solver. }
  rewrite Hv1 in Hc.
  assert (cell_ne c (Some v) = true) as Hne1.
  { destruct c as [w|]; simpl; [|done].
    rewrite bool_decide_eq_false_2; [done | congruence]. }
  assert (cell_ne (Some v) c = true) as Hne2.
  { destruct c as [w|]; simpl; [|done].
    rewrite bool_decide_eq_false_2; [done | congruence]. }
  split.
  - exists (classify pe pl pm (set_md5 cmp_data x c) ref_data).
    split; [by apply reconcile_classify|].
    apply differing_md5_fails; try done.
    + by rewrite index_set_md5.
    + rewrite cell_set_md5 by set_solver. by rewrite Hv2.
  - exists (classify pe pl pm cmp_data (set_md5 ref_data x c)).
    split; [by apply reconcile_classify|].
    apply differing_md5_fails; try done.
    + by rewrite index_set_md5.
    + rewrite cell_set_md5 by set_solver. by rewrite Hv1.
Qed.

Lemma changed_md5_fails_witness :
  ∃ b', reconcile None None (Some (lit "bam"))
          (set_md5 (one_bam "X") "test_x.dir/x.bam" (Some "Z")) (one_bam "X")
          = Ok b' ∧
        status_of true b' = FAIL ∧ "test_x.dir/x.bam" ∈ different_md5 b'.
Proof.
  apply (changed_md5_fails None None (Some (lit "bam")) (one_bam "X") (one_bam "X")
           true (classify None None (Some (lit "bam")) (one_bam "X") (one_bam "X"))
           "test_x.dir/x.bam" (Some "Z")).
  - vm_compute. reflexivity.
  - vm_compute. reflexivity.
  - apply (bool_decide_unpack _). vm_compute. exact I.
  - reflexivity.
  - reflexivity.
  - reflexivity.
  - vm_compute. discriminate.
Defined.

(** ** The collector without suffixes *)

Lemma touch_fresh (fs : gmap string (list string)) filename :
  fs !! filename = None → touch fs filename !! filename = Some [].
Proof. intros H. unfold touch. rewrite H. apply lookup_insert_eq. Qed.

Lemma touch_existing (fs : gmap string (list string)) filename rows :
  fs !! filename = Some rows → touch fs filename = fs.
Proof. intros H. unfold touch. by rewrite H. Qed.

Lemma touch_other (fs : gmap string (list string)) filename other :
  other ≠ filename → touch fs filename !! other = fs !! other.
Proof.
  intros Hne. unfold touch. destruct (fs !! filename); [done|].
  by apply lookup_insert_ne.
Qed.

(** C6, as stated, fails: the output file of an earlier run holds a row;
    the collector is called without suffixes, and the file still holds
    the row afterwards, so that the table it leaves is not empty. *)
Lemma stale_outfile_keeps_rows :
  ∃ actions,
    compute_file_metrics (λ x, x) "scripts" "test_x.log" "test_x.md5" "md5sum"
      (Some []) = Ok actions ∧
    exec_actions (λ _ fs, fs)
      {[ "test_x.md5" := ["test_x.dir/x.bam 0e1c4ee88f0249c21e16d93ac496eddf"] ]}
      actions !! "test_x.md5"
    = Some ["test_x.dir/x.bam 0e1c4ee88f0249c21e16d93ac496eddf"].
Proof. eexists. split; reflexivity. Qed.

(** C6, as amended: called with no list of suffixes, or with an empty one,
    the collector returns without an exception, runs no statement (so
    [find] never scans the directory), and its only effect is [touch_file]
    on the output file: the file is without any row when there was none
    before, a file that was there keeps its rows, and no other file
    changes. *)
Theorem no_suffixes_no_scan quote shell test_scriptsdir infile outfile metric
    suffixes (fs : gmap string (list string)) :
  suffixes = None ∨ suffixes = Some [] →
  ∃ actions,
    compute_file_metrics quote test_scriptsdir infile outfile metric suffixes
      = Ok actions ∧
    existsb runs_statement actions = false ∧
    exec_actions shell fs actions = touch fs outfile ∧
    (fs !! outfile = None →
     exec_actions shell fs actions !! outfile = Some []) ∧
    (∀ rows, fs !! outfile = Some rows →
             exec_actions shell fs actions !! outfile = Some rows) ∧
    (∀ other, other ≠ outfile →
              exec_actions shell fs actions !! other = fs !! other).
Proof.
  intros Hsuffixes.
  exists [E_info ("No metrics computed for " +:+ outfile); touch_file outfile].
  split; [by destruct Hsuffixes as [-> | ->]|].
  split; [reflexivity|].
  split; [reflexivity|].
  change (exec_actions shell fs
            [E_info ("No metrics computed for " +:+ outfile); touch_file outfile])
    with (touch fs outfile).
  split_and!.
  - apply touch_fresh.
  - intros rows Hrows. by rewrite (touch_existing fs outfile rows Hrows).
  - intros other Hne. by apply touch_other.
Qed.

Lemma no_suffixes_no_scan_witness :
  ∃ actions,
    compute_file_metrics (λ x, x) "scripts" "test_x.log" "test_x.md5" "md5sum"
      (Some []) = Ok actions ∧
    existsb runs_statement actions = false ∧
    exec_actions (λ _ fs, fs) ∅ actions !! "test_x.md5" = Some [].
Proof.
  destruct (no_suffixes_no_scan (λ x, x) (λ _ fs, fs) "scripts" "test_x.log"
              "test_x.md5" "md5sum" (Some []) ∅)
    as (actions & Hrun & Hscan & _ & Hempty & _).
  - right. reflexivity.
  - exists actions. split_and!; [exact Hrun | exact Hscan |].
    apply Hempty. reflexivity.
Defined.

Lemma length_append (s1 s2 : string) :
  String.length (s1 +:+ s2) = String.length s1 + String.length s2.
Proof. induction s1 as [|c s1 IH]; simpl; [done | by rewrite IH]. Qed.

Lemma strip_suffix_cons c rest extension :
  strip_suffix (String c rest) extension
  = if String.eqb (String c rest) extension then Some EmptyString
    else String c <$> strip_suffix rest extension.
Proof. reflexivity. Qed.

Lemma snip_append root extension : snip (root +:+ extension) extension = Ok root.
Proof.
  unfold snip.
  assert (strip_suffix (root +:+ extension) extension = Some root) as ->; [|done].
  induction root as [|c root IH].
  - destruct extension as [|a e]; [reflexivity|].
    simpl. by rewrite Ascii.eqb_refl, String.eqb_refl.
  - change (String c root +:+ extension) with (String c (root +:+ extension)).
    rewrite strip_suffix_cons.
    destruct (String.eqb_spec (String c (root +:+ extension)) extension) as [E|_].
    + apply (f_equal String.length) in E. simpl in E.
      rewrite length_append in E. lia.
    + by rewrite IH.
Qed.

(** With a suffix the collector does run [find]. *)
Lemma suffixes_scan quote test_scriptsdir track outfile metric x suffixes :
  ∃ actions,
    compute_file_metrics quote test_scriptsdir (track +:+ ".log") outfile metric
      (Some (x :: suffixes)) = Ok actions ∧
    existsb runs_statement actions = true.
Proof.
  unfold compute_file_metrics. rewrite snip_append. simpl. eauto.
Qed.

(** ** Comment lines and the checksum *)

Lemma strip_comments_differ l1 l2 :
  differ_in_comments l1 l2 → strip_comments l1 = strip_comments l2.
Proof.
  induction 1 as [|line l1 l2 _ IH|line l1 l2 Hc _ IH|line l1 l2 Hc _ IH];
    simpl.
  - reflexivity.
  - by rewrite IH.
  - by rewrite Hc.
  - by rewrite Hc.
Qed.

(** C9: two files that differ only in lines beginning with the comment
    marker have the same checksum. *)
Theorem checksum_ignores_comments digest l1 l2 :
  differ_in_comments l1 l2 → checksum digest l1 = checksum digest l2.
Proof.
  intros H. unfold checksum. by rewrite (strip_comments_differ l1 l2 H).
Qed.

Lemma checksum_ignores_comments_witness :
  checksum (String.concat EmptyString) ["# run of monday"; "chr1 10 20"; "chr2 5 9"]
  = checksum (String.concat EmptyString) ["chr1 10 20"; "# run of friday"; "chr2 5 9"].
Proof.
  apply checksum_ignores_comments.
  apply dic_left; [reflexivity|].
  apply dic_same. apply dic_right; [reflexivity|].
  apply dic_same. apply dic_nil.
Defined.

(** * Further properties of the comparison *)

(** ** Counting the files *)

Lemma classify_cover pe pl pm cmp_data ref_data :
  let b := classify pe pl pm cmp_data ref_data in
  let u := unclassified pe pl pm cmp_data ref_data in
  shared_files b = same_exist b ∪ same_lines b ∪ different_lines b ∪
                   same_md5 b ∪ different_md5 b ∪ u ∧
  same_exist b ## same_lines b ∧
  same_exist b ∪ same_lines b ## different_lines b ∧
  same_exist b ∪ same_lines b ∪ different_lines b ## same_md5 b ∧
  same_exist b ∪ same_lines b ∪ different_lines b ∪ same_md5 b
    ## different_md5 b ∧
  same_exist b ∪ same_lines b ∪ different_lines b ∪ same_md5 b ∪
    different_md5 b ## u.
Proof.
  intros b u.
  assert (∀ X Y : gset string, (∀ x, x ∈ X → x ∈ Y → False) → X ## Y) as Hdisj.
  { intros X Y H. apply elem_of_disjoint. exact H. }
  split_and!; [apply set_eq; intros x | apply Hdisj; intros x ..];
    destruct (classify_elem pe pl pm cmp_data ref_data x)
      as (He & Hdl & Hsl & Hdm & Hsm & Hu); fold b in He, Hdl, Hsl, Hdm, Hsm, Hu;
    fold u in Hu;
    [|rewrite ?elem_of_union, ?He, ?Hdl, ?Hsl, ?Hdm, ?Hsm, ?Hu;
      intuition congruence..].
  rewrite !elem_of_union. split.
  - intros Hx.
    destruct (hit pe x) eqn:Ee; [do 5 left; by apply He|].
    destruct (hit pl x) eqn:El.
    { destruct (cell_ne (cell nlines cmp_data x) (cell nlines ref_data x)) eqn:Ed.
      - do 3 left. right. by apply Hdl.
      - do 4 left. right. by apply Hsl. }
    destruct (hit pm x) eqn:Em; [|right; by apply Hu].
    destruct (cell_ne (cell md5 cmp_data x) (cell md5 ref_data x)) eqn:Ed.
    + left. right. by apply Hdm.
    + do 2 left. right. by apply Hsm.
  - intros [[[[[H|H]|H]|H]|H]|H];
      [apply He in H | apply Hsl in H | apply Hdl in H
      | apply Hsm in H | apply Hdm in H | apply Hu in H]; apply H.
Qed.

Lemma shared_files_counted_aux pe pl pm cmp_data ref_data :
  let b := classify pe pl pm cmp_data ref_data in
  size (same_exist b) + size (same_lines b) + size (different_lines b) +
  size (same_md5 b) + size (different_md5 b) +
  size (unclassified pe pl pm cmp_data ref_data)
  = size (index cmp_data ∩ index ref_data).
Proof.
  intros b. subst b.
  destruct (classify_cover pe pl pm cmp_data ref_data)
    as (Hcover & D1 & D2 & D3 & D4 & D5).
  change (index cmp_data ∩ index ref_data)
    with (shared_files (classify pe pl pm cmp_data ref_data)).
  rewrite Hcover.
  rewrite (size_union _ _ D5), (size_union _ _ D4), (size_union _ _ D3),
    (size_union _ _ D2), (size_union _ _ D1).
  reflexivity.
Qed.

(** X1: the sets of the comparison count every shared file once: the
    sizes of the three [same_*] sets, the two [different_*] sets and the
    set of the files that no policy selects add up to the number of shared
    files. *)
Theorem shared_files_counted pe pl pm cmp_data ref_data b :
  reconcile pe pl pm cmp_data ref_data = Ok b →
  size (same_exist b) + size (same_lines b) + size (different_lines b) +
  size (same_md5 b) + size (different_md5 b) +
  size (unclassified pe pl pm cmp_data ref_data)
  = size (shared_files b).
Proof.
  intros (_ & _ & ->)%reconcile_inv.
  apply shared_files_counted_aux.
Qed.

Lemma shared_files_counted_witness :
  ∃ b, reconcile None None (Some (lit "bam")) two_files two_files = Ok b ∧
       size (same_exist b) + size (same_lines b) + size (different_lines b) +
       size (same_md5 b) + size (different_md5 b) +
       size (unclassified None None (Some (lit "bam")) two_files two_files)
       = size (shared_files b).
Proof.
  assert (∃ b, reconcile None None (Some (lit "bam")) two_files two_files = Ok b)
    as [b Hb] by (eexists; vm_compute; reflexivity).
  exists b. split; [exact Hb|].
  apply (shared_files_counted None None (Some (lit "bam")) two_files two_files b Hb).
Defined.

Lemma size_index_split (df other : DataFrame) :
  len_frame df = size (index df ∩ index other) + size (index df ∖ index other).
Proof.
  unfold len_frame, index. rewrite <- size_dom.
  rewrite <- size_union by set_solver. f_equal.
  apply set_eq. intros x. rewrite elem_of_union, elem_of_intersection,
    elem_of_difference.
  destruct (decide (x ∈ dom (rows other))); naive_solver.
Qed.

Section Counts.

Variable as_list : string → list string.
Variable re_compile : string → option regex.

(** X2: in every line that the task writes, the counts agree with each
    other: the files of the current table that are not extra are as many as
    the files of the reference that are not missing, and the files
    reported as same or different are among them. *)
Theorem verdict_counts W infile v :
  compare_one as_list re_compile W infile = Ok v →
  col_nfiles v + col_missing v = col_nref v + col_extra v ∧
  (col_same v + col_different v + col_extra v ≤ col_nfiles v)%nat ∧
  (col_same v + col_different v + col_missing v ≤ col_nref v)%nat ∧
  col_different v = col_different_md5 v + col_different_lines v ∧
  col_same v = col_same_md5 v + col_same_lines v + col_same_exist v.
Proof.
  intros (track & pe & pl & pm & c & r & b & _ & _ & _ & _ & _ & _ & Hb & ->)
    %compare_one_inv.
  pose proof (shared_files_counted_aux pe pl pm c r) as Hcount.
  apply reconcile_inv in Hb as (_ & _ & ->). simpl.
  rewrite (size_index_split c r), (size_index_split r c).
  assert (index r ∩ index c = index c ∩ index r) as -> by set_solver.
  simpl in Hcount. lia.
Qed.

End Counts.

Lemma verdict_counts_witness :
  ∃ v, compare_one comma_list literal_compile W_pass "test_x.stats" = Ok v ∧
       col_nfiles v + col_missing v = col_nref v + col_extra v.
Proof.
  assert (∃ v, compare_one comma_list literal_compile W_pass "test_x.stats" = Ok v)
    as [v Hv] by (eexists; vm_compute; reflexivity).
  exists v. split; [exact Hv|].
  apply (verdict_counts comma_list literal_compile W_pass "test_x.stats" v Hv).
Defined.

(** ** Current and reference exchanged *)

Lemma cell_ne_sym {A} `{EqDecision A} (a b : option A) :
  cell_ne a b = cell_ne b a.
Proof.
  destruct a as [x|], b as [y|]; simpl; try done.
  f_equal. apply bool_decide_ext. naive_solver.
Qed.

Lemma classify_swap pe pl pm cmp_data ref_data :
  let b := classify pe pl pm cmp_data ref_data in
  let b' := classify pe pl pm ref_data cmp_data in
  missing b' = extra b ∧ extra b' = missing b ∧
  shared_files b' = shared_files b ∧
  same_exist b' = same_exist b ∧
  same_lines b' = same_lines b ∧ different_lines b' = different_lines b ∧
  same_md5 b' = same_md5 b ∧ different_md5 b' = different_md5 b.
Proof.
  intros b b'. subst b b'.
  assert (index ref_data ∩ index cmp_data = index cmp_data ∩ index ref_data)
    as Hshared by set_solver.
  split_and!; try reflexivity; try exact Hshared;
    apply set_eq; intros x;
    destruct (classify_elem pe pl pm cmp_data ref_data x)
      as (He & Hdl & Hsl & Hdm & Hsm & _);
    destruct (classify_elem pe pl pm ref_data cmp_data x)
      as (He' & Hdl' & Hsl' & Hdm' & Hsm' & _);
    rewrite ?He, ?Hdl, ?Hsl, ?Hdm, ?Hsm, ?He', ?Hdl', ?Hsl', ?Hdm', ?Hsm';
    simpl; rewrite Hshared;
    rewrite ?(cell_ne_sym (cell nlines ref_data x)),
            ?(cell_ne_sym (cell md5 ref_data x));
    reflexivity.
Qed.

(** X3: exchanging the current table and the reference exchanges the
    missing and the extra files and leaves the shared files, the three
    [same_*] sets, the two [different_*] sets and the status as they
    were. *)
Theorem reconcile_swap pe pl pm cmp_data ref_data b job_finished :
  reconcile pe pl pm cmp_data ref_data = Ok b →
  ∃ b', reconcile pe pl pm ref_data cmp_data = Ok b' ∧
        missing b' = extra b ∧ extra b' = missing b ∧
        shared_files b' = shared_files b ∧
        same_exist b' = same_exist b ∧
        same_lines b' = same_lines b ∧
        different_lines b' = different_lines b ∧
        same_md5 b' = same_md5 b ∧ different_md5 b' = different_md5 b ∧
        status_of job_finished b' = status_of job_finished b.
Proof.
  intros (Hc & Hr & ->)%reconcile_inv.
  exists (classify pe pl pm ref_data cmp_data).
  split; [by apply reconcile_classify|].
  destruct (classify_swap pe pl pm cmp_data ref_data)
    as (Hm & He & Hs & Hse & Hsl & Hdl & Hsm & Hdm).
  split_and!; try done.
  unfold status_of. rewrite Hm, He, Hdm, Hdl.
  by rewrite (Nat.add_comm (size (extra _)) (size (missing _))).
Qed.

Lemma reconcile_swap_witness :
  ∃ b b', reconcile None None (Some (lit "bam")) (one_bam "Z") two_files = Ok b ∧
          reconcile None None (Some (lit "bam")) two_files (one_bam "Z") = Ok b' ∧
          missing b' = extra b ∧ extra b' = missing b.
Proof.
  assert (∃ b, reconcile None None (Some (lit "bam")) (one_bam "Z") two_files = Ok b)
    as [b Hb] by (eexists; vm_compute; reflexivity).
  destruct (reconcile_swap None None (Some (lit "bam")) (one_bam "Z") two_files
              b true Hb) as (b' & Hb' & Hm & He & _).
  exists b, b'. split_and!; assumption.
Defined.

(** ** A column that a policy needs *)

Lemma compare_column_missing {A} name (proj : row → option A) op cmp_data ref_data
    (labels : gset string) :
  ¬ (name ∈ columns cmp_data ∧ name ∈ columns ref_data) →
  labels ⊆ index cmp_data ∩ index ref_data →
  compare_column name proj op cmp_data ref_data labels = Raise (KeyError name).
Proof.
  intros Hnot Hsub. unfold compare_column, column.
  destruct (bool_decide (name ∈ columns cmp_data)) eqn:Hc; [|reflexivity].
  apply bool_decide_eq_true in Hc. simpl.
  unfold select.
  rewrite (bool_decide_eq_true_2 (labels ⊆ dom (proj <$> rows cmp_data)))
    by (rewrite dom_fmap_L; unfold index in Hsub; set_solver).
  simpl.
  rewrite (bool_decide_eq_false_2 (name ∈ columns ref_data)) by tauto.
  reflexivity.
Qed.

Lemma reconcile_missing_column pe pl pm cmp_data ref_data :
  (is_Some pl →
   ¬ ("nlines" ∈ columns cmp_data ∧ "nlines" ∈ columns ref_data) →
   reconcile pe pl pm cmp_data ref_data = Raise (KeyError "nlines")) ∧
  ((is_Some pl →
    "nlines" ∈ columns cmp_data ∧ "nlines" ∈ columns ref_data) →
   is_Some pm →
   ¬ ("md5" ∈ columns cmp_data ∧ "md5" ∈ columns ref_data) →
   reconcile pe pl pm cmp_data ref_data = Raise (KeyError "md5")).
Proof.
  split.
  - intros [rl ->] Hnot. unfold reconcile.
    destruct pe as [re|]; simpl;
      (rewrite (compare_column_missing "nlines" nlines cell_ne);
       [reflexivity | done | unfold matching, not_matching; set_solver]).
  - intros Hnl [rm ->] Hnot. unfold reconcile.
    destruct pe as [re|], pl as [rl|]; simpl;
      repeat (rewrite compare_column_spec;
              [ simpl
              | by apply Hnl
              | by apply Hnl
              | unfold matching, not_matching; set_solver ]);
      (rewrite (compare_column_missing "md5" md5 cell_ne);
       [reflexivity | done | unfold matching, not_matching; set_solver]).
Qed.

(** X4: a line-count policy needs the column [nlines] in both tables, and
    a checksum policy the column [md5]: without it the comparison ends in
    a [KeyError], also when the policy selects no file at all. *)
Theorem policy_needs_column pe pl pm cmp_data ref_data :
  (is_Some pl →
   ¬ ("nlines" ∈ columns cmp_data ∧ "nlines" ∈ columns ref_data) →
   reconcile pe pl pm cmp_data ref_data = Raise (KeyError "nlines")) ∧
  ((is_Some pl →
    "nlines" ∈ columns cmp_data ∧ "nlines" ∈ columns ref_data) →
   is_Some pm →
   ¬ ("md5" ∈ columns cmp_data ∧ "md5" ∈ columns ref_data) →
   reconcile pe pl pm cmp_data ref_data = Raise (KeyError "md5")).
Proof.
  destruct (reconcile_missing_column pe pl pm cmp_data ref_data) as [Hnl Hmd].
  split.
  - intros Hpl Hnot. by apply Hnl.
  - intros Hcols Hpm Hnot. by apply Hmd.
Qed.

Lemma policy_needs_column_witness :
  reconcile None (Some (lit "nothing")) None
    (Frame ["md5"] (rows two_files)) two_files
  = Raise (KeyError "nlines").
Proof.
  apply (policy_needs_column None (Some (lit "nothing")) None
           (Frame ["md5"] (rows two_files)) two_files).
  - by eexists.
  - intros [H _]. vm_compute in H. set_solver.
Defined.

(** ** What the comparison reads *)

(** The comparison in full: the closed form when the columns are there, a
    [KeyError] otherwise. *)
Lemma reconcile_total pe pl pm cmp_data ref_data :
  reconcile pe pl pm cmp_data ref_data
  = if bool_decide (has_columns pl pm cmp_data ∧ has_columns pl pm ref_data)
    then Ok (classify pe pl pm cmp_data ref_data)
    else if bool_decide (is_Some pl ∧
                         ¬ ("nlines" ∈ columns cmp_data ∧
                            "nlines" ∈ columns ref_data))
         then Raise (KeyError "nlines")
         else Raise (KeyError "md5").
Proof.
  destruct (reconcile_missing_column pe pl pm cmp_data ref_data) as [Hnl Hmd].
  case_bool_decide as Hcols.
  - destruct Hcols. by apply reconcile_classify.
  - case_bool_decide as Hl.
    + destruct Hl. by apply Hnl.
    + unfold has_columns in Hcols.
      assert (is_Some pl →
              "nlines" ∈ columns cmp_data ∧ "nlines" ∈ columns ref_data) as Hl'.
      { intros Hpl.
        destruct (decide ("nlines" ∈ columns cmp_data ∧
                          "nlines" ∈ columns ref_data)); tauto. }
      destruct (decide (is_Some pm)) as [Hpm|Hpm]; [|tauto].
      apply Hmd; [done | done | tauto].
Qed.

(** X5: the comparison reads the line count of the files that are graded
    by line count and the checksum of the files that are graded by
    checksum, and nothing else of the rows: two current tables with the
    same columns and the same paths that agree on these cells give the same
    result, an exception included. *)
Theorem reconcile_reads_graded_cells pe pl pm cmp_data cmp_data' ref_data :
  columns cmp_data' = columns cmp_data →
  index cmp_data' = index cmp_data →
  (∀ x, x ∈ index cmp_data ∩ index ref_data → hit pe x = false →
        (hit pl x = true → cell nlines cmp_data' x = cell nlines cmp_data x) ∧
        (hit pl x = false → hit pm x = true →
         cell md5 cmp_data' x = cell md5 cmp_data x)) →
  reconcile pe pl pm cmp_data' ref_data = reconcile pe pl pm cmp_data ref_data.
Proof.
  intros Hcols Hidx Hcells.
  rewrite !reconcile_total. unfold has_columns. rewrite Hcols.
  case_bool_decide; [|done]. f_equal.
  assert (∀ x, x ∈ index cmp_data ∩ index ref_data →
               grade_of pe pl pm x = ByLines →
               cell nlines cmp_data' x = cell nlines cmp_data x) as Hnl.
  { intros x Hx Hg. apply grade_of_cases in Hg as [? ?]. by apply Hcells. }
  assert (∀ x, x ∈ index cmp_data ∩ index ref_data →
               grade_of pe pl pm x = ByMd5 →
               cell md5 cmp_data' x = cell md5 cmp_data x) as Hmd.
  { intros x Hx Hg. apply grade_of_cases in Hg as (? & ? & ?). by apply Hcells. }
  unfold classify. rewrite Hidx.
  f_equal; apply set_eq; intros x; rewrite !elem_of_filter;
    split; intros [[Hg Hc] Hx]; (split; [split; [exact Hg|] | exact Hx]);
    first [ rewrite <- (Hnl x Hx Hg); exact Hc
          | rewrite (Hnl x Hx Hg); exact Hc
          | rewrite <- (Hmd x Hx Hg); exact Hc
          | rewrite (Hmd x Hx Hg); exact Hc ].
Qed.

Lemma reconcile_reads_graded_cells_witness :
  reconcile (Some (lit "bam")) None (Some (lit "bam"))
    (set_md5 (one_bam "X") "test_x.dir/x.bam" (Some "Z")) (one_bam "X")
  = reconcile (Some (lit "bam")) None (Some (lit "bam"))
      (one_bam "X") (one_bam "X").
Proof.
  apply reconcile_reads_graded_cells.
  - reflexivity.
  - apply index_set_md5.
  - intros x Hx Hpe.
    assert (x = "test_x.dir/x.bam") as ->.
    { apply elem_of_intersection in Hx as [Hx _].
      unfold index, one_bam in Hx. simpl in Hx.
      rewrite dom_insert_L, dom_empty_L in Hx. set_solver. }
    vm_compute in Hpe. discriminate.
Defined.

(** ** Files of one table only, and no policy at all *)

Section Verdicts.

Variable as_list : string → list string.
Variable re_compile : string → option regex.

(** X6: a path that only one of the two tables has makes the status FAIL,
    whatever the policies say about it: it is listed as extra when the
    current table has it, as missing when the reference has it. *)
Theorem unshared_path_fails W infile track cmp_data ref_data v x :
  snip infile ".stats" = Ok track →
  files W !! infile = Some (Table cmp_data) →
  files W !! (track +:+ ".ref") = Some (Table ref_data) →
  compare_one as_list re_compile W infile = Ok v →
  (x ∈ index cmp_data → x ∉ index ref_data →
   x ∈ col_files_extra v ∧ col_status v = FAIL) ∧
  (x ∈ index ref_data → x ∉ index cmp_data →
   x ∈ col_files_missing v ∧ col_status v = FAIL).
Proof.
  intros Htrack Hcmp Href Hv.
  pose proof (verdict_status as_list re_compile W infile v Hv) as Hst.
  apply compare_one_inv in Hv
    as (track' & pe & pl & pm & c & r & b & Ht & _ & _ & _ & Hc & Hr & Hb & ->).
  rewrite Htrack in Ht. injection Ht as <-.
  rewrite Hcmp in Hc. injection Hc as <-.
  rewrite Href in Hr. injection Hr as <-.
  apply reconcile_inv in Hb as (_ & _ & ->). simpl in *.
  split; intros Hin Hout.
  - assert (x ∈ index cmp_data ∖ index ref_data) as Hx by set_solver.
    split; [done|].
    destruct (status_of _ _); [|done].
    destruct Hst as [Hst _]. destruct (Hst eq_refl) as (_ & _ & He & _).
    rewrite He in Hx. set_solver.
  - assert (x ∈ index ref_data ∖ index cmp_data) as Hx by set_solver.
    split; [done|].
    destruct (status_of _ _); [|done].
    destruct Hst as [Hst _]. destruct (Hst eq_refl) as (_ & Hm & _).
    rewrite Hm in Hx. set_solver.
Qed.

Lemma policy_absent W key :
  PARAMS W !! key = None → policy as_list re_compile W key = Ok None.
Proof. unfold policy. by intros ->. Qed.

(** X7: for a test without any of the three policies the comparison
    always succeeds, whatever columns the tables have; no file is
    reported as same or different, and the status is OK exactly when the
    job finished and the two tables list the same paths. *)
Theorem no_policy_compares_paths W infile track cmp_data ref_data :
  snip infile ".stats" = Ok track →
  PARAMS W !! (track +:+ "_regex_exist") = None →
  PARAMS W !! (track +:+ "_regex_linecount") = None →
  PARAMS W !! (track +:+ "_regex_md5") = None →
  files W !! infile = Some (Table cmp_data) →
  files W !! (track +:+ ".ref") = Some (Table ref_data) →
  ∃ v, compare_one as_list re_compile W infile = Ok v ∧
       col_same v = 0 ∧ col_different v = 0 ∧
       (col_status v = OK ↔
        log_check W track = true ∧ index cmp_data = index ref_data).
Proof.
  intros Htrack He Hl Hm Hcmp Href.
  exists (make_verdict track (log_check W track) cmp_data ref_data
            (Buckets (index cmp_data ∩ index ref_data)
                     (index ref_data ∖ index cmp_data)
                     (index cmp_data ∖ index ref_data)
                     ∅ ∅ ∅ ∅ ∅ (index cmp_data ∩ index ref_data))).
  split_and!.
  - unfold compare_one. rewrite Htrack. simpl.
    rewrite !policy_absent by done. simpl.
    unfold path_exists. rewrite bool_decide_eq_true_2 by (rewrite Href; eauto).
    simpl. unfold read_csv. rewrite Hcmp, Href. reflexivity.
  - reflexivity.
  - reflexivity.
  - simpl. rewrite status_of_OK. simpl.
    split.
    + intros (Hjf & Hmiss & Hext & _). split; [done|].
      apply set_eq. intros x. split; intros Hx.
      * destruct (decide (x ∈ index ref_data)) as [|Hn]; [done|].
        assert (x ∈ index cmp_data ∖ index ref_data) as Hin
          by (by apply elem_of_difference).
        rewrite Hext in Hin. by apply not_elem_of_empty in Hin.
      * destruct (decide (x ∈ index cmp_data)) as [|Hn]; [done|].
        assert (x ∈ index ref_data ∖ index cmp_data) as Hin
          by (by apply elem_of_difference).
        rewrite Hmiss in Hin. by apply not_elem_of_empty in Hin.
    + intros [Hjf Heq]. rewrite Heq, difference_diag_L. by split_and!.
Qed.

(** X8: a key with an empty value counts as a key that is not there:
    taking the empty values out of the configuration changes nothing in the
    line of a test, nor in the exception that the comparison ends in. *)
Theorem empty_values_ignored W infile :
  let W' := {| glob := glob W; is_complete := is_complete W;
               PARAMS := filter (λ kv, truthy kv.2 = true) (PARAMS W);
               files := files W |} in
  compare_one as_list re_compile W' infile
  = compare_one as_list re_compile W infile.
Proof.
  intros W'.
  assert (∀ key, policy as_list re_compile W' key
                 = policy as_list re_compile W key) as Hpol.
  { intros key. unfold policy, W'. simpl.
    destruct (PARAMS W !! key) as [value|] eqn:Hkey.
    - destruct (truthy value) eqn:Ht.
      + assert (filter (λ kv, truthy kv.2 = true) (PARAMS W) !! key = Some value)
          as -> by (by apply map_lookup_filter_Some).
        by rewrite Ht.
      + assert (filter (λ kv, truthy kv.2 = true) (PARAMS W) !! key = None)
          as ->; [|done].
        apply map_lookup_filter_None. right. intros v Hv. simpl.
        rewrite Hkey in Hv. injection Hv as <-. congruence.
    - assert (filter (λ kv, truthy kv.2 = true) (PARAMS W) !! key = None)
        as ->; [|done].
      apply map_lookup_filter_None. by left. }
  unfold compare_one. destruct (snip infile ".stats") as [track|e]; [|done].
  simpl. by rewrite !Hpol.
Qed.

(** X9: the lines that the task has written are the lines of the first
    tests of its input, in their order; it ends without an exception
    exactly when there is a line for every test, and an exception is the
    one of the first test without a line. *)
Theorem lines_are_a_prefix W infiles :
  let o := compareCheckSums as_list re_compile W infiles in
  let n := length (out_lines o) in
  Forall2 (λ f v, compare_one as_list re_compile W f = Ok v)
          (take n infiles) (out_lines o) ∧
  (out_raised o = None ↔ n = length infiles) ∧
  (∀ e, out_raised o = Some e →
        ∃ f, infiles !! n = Some f ∧
             compare_one as_list re_compile W f = Raise e).
Proof.
  unfold compareCheckSums.
  induction infiles as [|f infiles IH]; simpl.
  - split_and!; [constructor | done | discriminate].
  - destruct (compare_one as_list re_compile W f) as [v|e] eqn:Hf; simpl.
    + destruct (compare_loop as_list re_compile W infiles) as [vs e'].
      simpl in *. destruct IH as (IH1 & IH2 & IH3).
      split_and!.
      * by constructor.
      * rewrite IH2. lia.
      * exact IH3.
    + split_and!; [constructor | split; [discriminate | lia] |].
      intros e0 [= <-]. by exists f.
Qed.

End Verdicts.

Lemma unshared_path_fails_witness :
  let W := {| glob := λ _, []; is_complete := λ _, true;
              PARAMS := ∅;
              files := list_to_map [("test_x.stats", Table two_files);
                                    ("test_x.ref", Table (one_bam "X"))] |} in
  ∃ v, compare_one comma_list literal_compile W "test_x.stats" = Ok v ∧
       "test_x.dir/a.bam" ∈ col_files_extra v ∧ col_status v = FAIL.
Proof.
  intros W.
  assert (∃ v, compare_one comma_list literal_compile W "test_x.stats" = Ok v)
    as [v Hv] by (eexists; vm_compute; reflexivity).
  exists v. split; [exact Hv|].
  apply (unshared_path_fails comma_list literal_compile W "test_x.stats" "test_x"
           two_files (one_bam "X") v "test_x.dir/a.bam");
    try (vm_compute; reflexivity); try exact Hv.
  intros H. apply (bool_decide_pack _) in H. vm_compute in H. exact H.
Defined.

Lemma no_policy_compares_paths_witness :
  let W := {| glob := λ _, []; is_complete := λ _, true;
              PARAMS := ∅;
              files := list_to_map [("test_x.stats", Table (one_bam "Z"));
                                    ("test_x.ref", Table (one_bam "X"))] |} in
  ∃ v, compare_one comma_list literal_compile W "test_x.stats" = Ok v ∧
       col_same v = 0 ∧ col_different v = 0 ∧
       (col_status v = OK ↔
        log_check W "test_x" = true ∧ index (one_bam "Z") = index (one_bam "X")).
Proof.
  intros W.
  apply (no_policy_compares_paths comma_list literal_compile W "test_x.stats"
           "test_x" (one_bam "Z") (one_bam "X")); vm_compute; reflexivity.
Defined.

(** * The list of tests *)

(** ** The order of [sorted] *)

Lemma string_compare_le_trans s1 : ∀ s2 s3,
  String.compare s1 s2 ≠ Gt → String.compare s2 s3 ≠ Gt →
  String.compare s1 s3 ≠ Gt.
Proof.
  induction s1 as [|c1 s1 IH]; intros [|c2 s2] [|c3 s3]; simpl; try congruence.
  unfold Ascii.compare.
  destruct (N.compare_spec (N_of_ascii c1) (N_of_ascii c2)) as [E12|L12|G12];
    destruct (N.compare_spec (N_of_ascii c2) (N_of_ascii c3)) as [E23|L23|G23];
    try congruence.
  - rewrite E12, E23, N.compare_refl. apply IH.
  - intros _ _. rewrite E12. apply N.compare_lt_iff in L23. by rewrite L23.
  - intros _ _. rewrite <- E23. apply N.compare_lt_iff in L12. by rewrite L12.
  - intros _ _.
    assert (N_of_ascii c1 < N_of_ascii c3)%N as L13 by lia.
    apply N.compare_lt_iff in L13. by rewrite L13.
Qed.

Lemma string_le_compare s1 s2 : string_le s1 s2 ↔ String.compare s1 s2 ≠ Gt.
Proof.
  unfold string_le, String.leb. destruct (String.compare s1 s2); naive_solver.
Qed.

#[global] Instance string_le_trans : Transitive string_le.
Proof.
  intros s1 s2 s3. rewrite !string_le_compare. apply string_compare_le_trans.
Qed.

#[global] Instance string_le_total : Total string_le.
Proof. intros s1 s2. apply String.leb_total. Qed.

#[global] Instance string_le_antisym : AntiSymm (=) string_le.
Proof. intros s1 s2. apply String.leb_antisym. Qed.

Lemma sorted_Sorted l : Sorted string_le (sorted l).
Proof. apply (Sorted_merge_sort string_le). Qed.

Lemma sorted_Permutation l : sorted l ≡ₚ l.
Proof. apply (merge_sort_Permutation string_le). Qed.

(** [sorted] gives the same list for every order of its input. *)
Lemma sorted_perm l1 l2 : l1 ≡ₚ l2 → sorted l1 = sorted l2.
Proof.
  intros Hp. apply (Sorted_unique string_le); try apply sorted_Sorted.
  by rewrite !sorted_Permutation.
Qed.

(** ** Splitting a key *)

Lemma split_on_cons c (s : string) : ∃ w ws, split_on c s = w :: ws.
Proof.
  induction s as [|a s (w & ws & IH)]; simpl; [by eauto|].
  destruct (Ascii.eqb a c); [by eauto|]. rewrite IH. by eauto.
Qed.

Lemma split_on_sep c rest : split_on c (String c rest) = EmptyString :: split_on c rest.
Proof. simpl. by rewrite Ascii.eqb_refl. Qed.

Lemma split_on_other c a s w ws :
  a ≠ c → split_on c s = w :: ws → split_on c (String a s) = String a w :: ws.
Proof.
  intros Hne Hs. simpl. rewrite Hs.
  destruct (Ascii.eqb_spec a c); [done | reflexivity].
Qed.

Lemma split_on_head c (s : string) w ws :
  split_on c s = w :: ws →
  (c ∉ list_ascii_of_string w) ∧
  (s = w ∧ ws = [] ∨ ∃ rest, s = w +:+ String c rest ∧ ws = split_on c rest).
Proof.
  revert w ws. induction s as [|a s IH]; intros w ws; simpl.
  - intros [= <- <-]. split; [apply not_elem_of_nil | by left].
  - destruct (Ascii.eqb_spec a c) as [->|Hne].
    + intros [= <- <-]. split; [apply not_elem_of_nil|].
      right. by exists s.
    + destruct (split_on_cons c s) as (w' & ws' & Hs). rewrite Hs.
      intros [= <- <-]. destruct (IH w' ws' Hs) as [Hw Hrest].
      split.
      * simpl. rewrite not_elem_of_cons. split; [congruence | done].
      * destruct Hrest as [[-> ->] | (rest & -> & ->)]; [by left|].
        right. by exists rest.
Qed.

Lemma split_on_first c name rest :
  c ∉ list_ascii_of_string name →
  split_on c (name +:+ String c rest) = name :: split_on c rest.
Proof.
  induction name as [|a name IH]; simpl; intros Hc.
  - by rewrite Ascii.eqb_refl.
  - rewrite not_elem_of_cons in Hc. destruct Hc as [Hne Hc].
    rewrite (IH Hc). destruct (Ascii.eqb_spec a c); [congruence | done].
Qed.

Lemma split_on_whole c name :
  c ∉ list_ascii_of_string name → split_on c name = [name].
Proof.
  induction name as [|a name IH]; simpl; intros Hc; [done|].
  rewrite not_elem_of_cons in Hc. destruct Hc as [Hne Hc].
  rewrite (IH Hc). destruct (Ascii.eqb_spec a c); [congruence | done].
Qed.

Lemma prefix_test x :
  String.prefix "test_" x = true ↔ ∃ rest, x = "test_" +:+ rest.
Proof.
  split.
  - intros H. apply String.prefix_correct in H. simpl in H.
    exists (drop_chars 5 x).
    do 5 (destruct x as [|? x]; [discriminate|]; injection H as <- H).
    reflexivity.
  - intros [rest ->]. apply String.prefix_correct. simpl. by destruct rest.
Qed.

(** The second piece of a key that begins with [test_]. *)
Lemma split_test_key rest :
  ∃ name ws, split_on "_" ("test_" +:+ rest) = "test" :: name :: ws ∧
             split_on "_" rest = name :: ws.
Proof.
  destruct (split_on_cons "_" rest) as (name & ws & Hs).
  exists name, ws. split; [|done].
  change ("test_" +:+ rest) with ("test" +:+ String "_" rest).
  rewrite split_on_first; [by rewrite Hs|].
  vm_compute. set_solver.
Qed.

Lemma test_of_key_done x :
  String.prefix "test_" x = true → test_of_key x = Done (name_of_key x).
Proof.
  intros [rest ->]%prefix_test.
  destruct (split_test_key rest) as (name & ws & Hs & _).
  unfold test_of_key, name_of_key, item. by rewrite Hs.
Qed.

Lemma test_names_done keys :
  test_names keys
  = Done (map name_of_key
              (List.filter (λ x, String.prefix "test_" x) keys)).
Proof.
  induction keys as [|x keys IH]; simpl; [done|].
  destruct (String.prefix "test_" x) eqn:Hx; [|done].
  by rewrite (test_of_key_done x Hx), IH.
Qed.

Lemma TESTS_of_done keys :
  TESTS_of keys
  = Done (sorted (remove_dups
       (map name_of_key (List.filter (λ x, String.prefix "test_" x) keys)))).
Proof. unfold TESTS_of. by rewrite test_names_done. Qed.

(** ** The names of the tests *)

Lemma append_empty_r (s : string) : s +:+ EmptyString = s.
Proof.
  induction s as [|a s IH]; [done|].
  change (String a (s +:+ EmptyString) = String a s). by rewrite IH.
Qed.

Lemma name_of_key_shape rest :
  ∃ name tail,
    name_of_key ("test_" +:+ rest) = "test_" +:+ name ∧
    no_underscore name ∧ rest = name +:+ tail ∧
    (tail = EmptyString ∨ ∃ r, tail = String "_" r).
Proof.
  destruct (split_test_key rest) as (name & ws & Hs & Hrest).
  destruct (split_on_head "_" rest name ws Hrest) as [Hname Hcases].
  exists name. unfold name_of_key. rewrite Hs. simpl.
  destruct Hcases as [[-> ->] | (r & -> & _)].
  - exists EmptyString. split_and!; try done.
    + by rewrite append_empty_r.
    + by left.
  - exists (String "_" r). split_and!; try done. right. by exists r.
Qed.

Lemma name_of_key_built name tail :
  no_underscore name →
  tail = EmptyString ∨ (∃ r, tail = String "_" r) →
  name_of_key ("test_" +:+ (name +:+ tail)) = "test_" +:+ name.
Proof.
  intros Hname Htail. unfold name_of_key.
  change ("test_" +:+ (name +:+ tail)) with ("test" +:+ String "_" (name +:+ tail)).
  rewrite split_on_first by (vm_compute; set_solver).
  destruct Htail as [-> | [r ->]].
  - rewrite append_empty_r. by rewrite split_on_whole.
  - by rewrite split_on_first.
Qed.

Lemma TESTS_elem W t :
  t ∈ sorted (remove_dups
        (map name_of_key
             (List.filter (λ x, String.prefix "test_" x)
                          (map_to_list (PARAMS W)).*1))) ↔
  ∃ name tail,
    is_Some (PARAMS W !! ("test_" +:+ (name +:+ tail))) ∧
    t = "test_" +:+ name ∧ no_underscore name ∧
    (tail = EmptyString ∨ ∃ r, tail = String "_" r).
Proof.
  rewrite sorted_Permutation, elem_of_remove_dups, list_elem_of_fmap.
  split.
  - intros (x & -> & Hx).
    apply list_elem_of_In, filter_In in Hx as [Hx Hp].
    apply list_elem_of_In, list_elem_of_fmap in Hx as ([k v] & -> & Hkv).
    apply elem_of_map_to_list in Hkv. simpl in *.
    apply prefix_test in Hp as [rest ->].
    destruct (name_of_key_shape rest) as (name & tail & Hn & Hu & -> & Htail).
    exists name, tail. split_and!; by eauto.
  - intros (name & tail & [v Hv] & -> & Hu & Htail).
    exists ("test_" +:+ (name +:+ tail)). split.
    + symmetry. by apply name_of_key_built.
    + apply list_elem_of_In, filter_In. split.
      * apply list_elem_of_In, list_elem_of_fmap.
        exists ("test_" +:+ (name +:+ tail), v). split; [done|].
        by apply elem_of_map_to_list.
      * apply prefix_test. by eexists.
Qed.

(** X10: [TESTS] is always defined, and it holds the names [test_<name>]
    such that the configuration has the key [test_<name>] itself or a key
    [test_<name>_...], where [<name>] is free of underscores: a name is
    cut at its first underscore. *)
Theorem TESTS_names W :
  ∃ ts, TESTS W = Done ts ∧
    ∀ t, t ∈ ts ↔
      ∃ name tail,
        is_Some (PARAMS W !! ("test_" +:+ (name +:+ tail))) ∧
        t = "test_" +:+ name ∧ no_underscore name ∧
        (tail = EmptyString ∨ ∃ r, tail = String "_" r).
Proof.
  unfold TESTS. rewrite TESTS_of_done.
  eexists. split; [reflexivity|].
  intros t. apply TESTS_elem.
Qed.

(** X11: [TESTS] is sorted and free of duplicates, and it does not depend
    on the order in which the dictionary lists its keys. *)
Theorem TESTS_sorted keys :
  (∃ ts, TESTS_of keys = Done ts ∧ Sorted string_le ts ∧ NoDup ts) ∧
  (∀ keys', keys ≡ₚ keys' → TESTS_of keys' = TESTS_of keys).
Proof.
  split.
  - rewrite TESTS_of_done. eexists. split; [reflexivity|]. split.
    + apply sorted_Sorted.
    + rewrite sorted_Permutation. apply NoDup_remove_dups.
  - intros keys' Hp. rewrite !TESTS_of_done. f_equal. apply sorted_perm.
    apply NoDup_Permutation; try apply NoDup_remove_dups.
    intros t. rewrite !elem_of_remove_dups, !list_elem_of_fmap.
    assert (∀ x, x ∈ List.filter (λ x, String.prefix "test_" x) keys' ↔
                 x ∈ List.filter (λ x, String.prefix "test_" x) keys) as Hf.
    { intros x. rewrite !list_elem_of_In, !filter_In, <- !list_elem_of_In.
      by rewrite Hp. }
    split; intros (x & -> & Hx); exists x; (split; [done|]); by apply Hf.
Qed.

Lemma TESTS_sorted_witness :
  TESTS_of ["test_b_regex_md5"; "jobs"; "test_a_target"; "test_b_pipeline"]
  = TESTS_of ["test_b_pipeline"; "test_a_target"; "jobs"; "test_b_regex_md5"].
Proof.
  apply (TESTS_sorted
           ["test_b_pipeline"; "test_a_target"; "jobs"; "test_b_regex_md5"]).
  apply (Permutation.Permutation_rev
           ["test_b_pipeline"; "test_a_target"; "jobs"; "test_b_regex_md5"]).
Defined.

(** * Running the tests *)

Section RunTest.

Variable as_list : string → list string.

(** X12: [run_test] runs the pipeline when the test has exactly one
    target; with no target or with several targets it raises the
    [UnboundLocalError] of the variable [statement] and runs nothing. *)
Theorem run_test_needs_one_target W infile outfile track :
  snip outfile ".log" = Ok track →
  let targets := as_list (default "full" (PARAMS W !! (track +:+ "_target"))) in
  (∀ target, targets = [target] →
     run_test as_list W infile outfile
     = Done [RunCall (template_statement target)
               [("track", track);
                ("pipeline_name", pipeline_name_of W track);
                ("outfile", outfile)]
               true (Some "unlimited")]) ∧
  (length targets ≠ 1 →
     run_test as_list W infile outfile
     = Failed (UnboundLocalError "statement")).
Proof.
  intros Htrack targets. unfold run_test. rewrite Htrack. simpl.
  fold targets. split.
  - by intros target ->.
  - destruct targets as [|t [|t' ts]]; simpl; [done | lia | done].
Qed.

(** X13: every job of [run_tests] is made for a test [test_<name>] of
    [TESTS] that is no prerequisite; its output file is
    [test_<name>.log], from which [run_test] gets the track back, and
    without a key [test_<name>_pipeline] the pipeline that is run is
    [<name>]. *)
Theorem run_tests_jobs_tracks W jobs infile outfile :
  run_tests_jobs as_list W = Done jobs →
  (infile, outfile) ∈ jobs →
  ∃ name,
    no_underscore name ∧
    infile = "test_" +:+ name +:+ ".tgz" ∧
    outfile = "test_" +:+ name +:+ ".log" ∧
    (("test_" +:+ name)
       ∉ as_list (default EmptyString (PARAMS W !! "prerequisites"))) ∧
    snip outfile ".log" = Ok ("test_" +:+ name) ∧
    (PARAMS W !! ("test_" +:+ name +:+ "_pipeline") = None →
     pipeline_name_of W ("test_" +:+ name) = name).
Proof.
  unfold run_tests_jobs, TESTS. rewrite TESTS_of_done. simpl.
  intros [= <-] Hjob.
  apply list_elem_of_fmap in Hjob as (t & [= -> ->] & Ht).
  apply list_elem_of_In, filter_In in Ht as [Ht Hpre].
  apply list_elem_of_In, TESTS_elem in Ht
    as (name & tail & _ & -> & Hname & _).
  apply negb_true_iff, bool_decide_eq_false in Hpre.
  exists name. split_and!; try done.
  - apply snip_append.
  - intros Hnone. unfold pipeline_name_of.
    change (("test_" +:+ name) +:+ "_pipeline")
      with ("test_" +:+ name +:+ "_pipeline").
    by rewrite Hnone.
Qed.

End RunTest.

Lemma run_test_needs_one_target_witness :
  let W := {| glob := λ _, []; is_complete := λ _, true;
              PARAMS := list_to_map [("test_x_target", "full,extra")];
              files := ∅ |} in
  run_test comma_list W "test_x.tgz" "test_x.log"
  = Failed (UnboundLocalError "statement").
Proof.
  intros W.
  apply (run_test_needs_one_target comma_list W "test_x.tgz" "test_x.log" "test_x").
  - vm_compute. reflexivity.
  - vm_compute. lia.
Defined.

Lemma run_tests_jobs_tracks_witness :
  let W := {| glob := λ _, []; is_complete := λ _, true;
              PARAMS := list_to_map [("test_x_regex_md5", "bam")];
              files := ∅ |} in
  ∃ name,
    no_underscore name ∧
    "test_x.log" = "test_" +:+ name +:+ ".log" ∧
    snip "test_x.log" ".log" = Ok ("test_" +:+ name).
Proof.
  intros W.
  destruct (run_tests_jobs_tracks comma_list W [("test_x.tgz", "test_x.log")]
              "test_x.tgz" "test_x.log")
    as (name & Hname & _ & Hout & _ & Hsnip & _).
  - vm_compute. reflexivity.
  - apply list_elem_of_here.
  - exists name. by split_and!.
Defined.

(** X14: the statement of [mergeFileStatistics] does not depend on the
    order in which its input files are given: they are passed on in
    sorted order. *)
Theorem mergeFileStatistics_order infiles infiles' outfile :
  infiles ≡ₚ infiles' →
  mergeFileStatistics infiles outfile = mergeFileStatistics infiles' outfile ∧
  ∃ sorted_infiles,
    Sorted string_le sorted_infiles ∧ sorted_infiles ≡ₚ infiles ∧
    locals (mergeFileStatistics infiles outfile)
    = [("infiles", join " " sorted_infiles); ("outfile", outfile)].
Proof.
  intros Hp. split.
  - unfold mergeFileStatistics. by rewrite (sorted_perm infiles infiles' Hp).
  - exists (sorted infiles). split_and!.
    + apply sorted_Sorted.
    + apply sorted_Permutation.
    + reflexivity.
Qed.

Lemma mergeFileStatistics_order_witness :
  mergeFileStatistics ["test_x.md5"; "test_x.lines"; "test_x.exist"] "test_x.stats"
  = mergeFileStatistics ["test_x.exist"; "test_x.lines"; "test_x.md5"] "test_x.stats".
Proof.
  apply (mergeFileStatistics_order
           ["test_x.md5"; "test_x.lines"; "test_x.exist"]
           ["test_x.exist"; "test_x.lines"; "test_x.md5"] "test_x.stats").
  apply (Permutation.Permutation_rev
           ["test_x.md5"; "test_x.lines"; "test_x.exist"]).
Defined.

(** * The entry point *)

Section MainProperties.

Variable dirname : string → string.
Variable path_join : string → string → string.
Variable str : value → string.

(** X15: [main] called without arguments, as the module does when it is
    run as a script, raises a [TypeError].  When [main] returns, the only
    parameter that it has changed is [test_scriptsdir]: the parameter
    [workflow_options], which must be there, keeps its value, with or
    without [--local] among the arguments. *)
Theorem main_keeps_workflow_options file params :
  main dirname path_join str file params None
    = Failed (TypeError "argument of type 'NoneType' is not iterable") ∧
  ∀ argv params' argv',
    main dirname path_join str file params (Some argv) = Done (params', argv') →
    argv' = Some argv ∧
    params' = <["test_scriptsdir" :=
                 Str (path_join (dirname (dirname (dirname file))) "scripts")]>
              params ∧
    is_Some (params !! "workflow_options") ∧
    params' !! "workflow_options" = params !! "workflow_options".
Proof.
  split; [reflexivity|].
  intros argv params' argv'. unfold main. simpl.
  destruct (bool_decide ("--local" ∈ argv)); simpl;
    (destruct (getitem params "cluster") as [cluster|e] eqn:Hc; simpl; [|done];
     destruct (subscript cluster "num_jobs") as [num_jobs|e] eqn:Hn; simpl;
       [|done];
     unfold getitem;
     destruct (params !! "workflow_options") as [w|] eqn:Hw; simpl; [|done];
     intros [= <- <-]; split_and!; [done | done | by eauto |];
     by rewrite lookup_insert_ne).
Qed.

End MainProperties.

Lemma main_keeps_workflow_options_witness :
  let params : gmap string value :=
    list_to_map [("cluster", Dict (list_to_map [("num_jobs", Int 4)]));
                 ("workflow_options", Str EmptyString)] in
  ∃ params',
    main (λ x, x) (λ a b, a +:+ "/" +:+ b) (λ _, "4") "pipeline_testing.py" params
         (Some ["make"; "full"; "--local"])
      = Done (params', Some ["make"; "full"; "--local"]) ∧
    params' !! "workflow_options" = Some (Str EmptyString).
Proof.
  intros params.
  assert (∃ params',
    main (λ x, x) (λ a b, a +:+ "/" +:+ b) (λ _, "4") "pipeline_testing.py" params
         (Some ["make"; "full"; "--local"])
      = Done (params', Some ["make"; "full"; "--local"])) as [params' Hmain]
    by (eexists; vm_compute; reflexivity).
  exists params'. split; [exact Hmain|].
  destruct (main_keeps_workflow_options (λ x, x) (λ a b, a +:+ "/" +:+ b)
              (λ _, "4") "pipeline_testing.py" params) as [_ Hkeep].
  destruct (Hkeep _ _ _ Hmain) as (_ & _ & _ & ->).
  reflexivity.
Defined.

(** * The three collectors *)

Section Collectors.

Variable as_list : string → list string.
Variable quote : string → string.

(** X16: when [P.as_list] gives no fragment for an empty value, a test
    without the key [regex_md5] gets its file of checksums by
    [touch_file] alone, and no statement is run; the same holds for the
    line counts without [regex_linecount] and for the existence check
    without [regex_exist]. *)
Theorem collectors_without_suffixes W test_scriptsdir infile outfile track :
  as_list EmptyString = [] →
  snip infile ".log" = Ok track →
  let untouched := Ok [E_info ("No metrics computed for " +:+ outfile);
                       touch_file outfile] in
  (PARAMS W !! (track +:+ "_regex_md5") = None →
   buildCheckSums as_list quote W test_scriptsdir infile outfile = untouched) ∧
  (PARAMS W !! (track +:+ "_regex_linecount") = None →
   buildLineCounts as_list quote W test_scriptsdir infile outfile = untouched) ∧
  (PARAMS W !! (track +:+ "_regex_exist") = None →
   checkFileExistence as_list quote W test_scriptsdir infile outfile = untouched).
Proof.
  intros Hempty Htrack untouched.
  unfold buildCheckSums, buildLineCounts, checkFileExistence.
  rewrite Htrack. simpl.
  split_and!; intros ->; simpl; by rewrite Hempty.
Qed.

Lemma not_exec_line (line : string) :
  substring 0 5 line ≠ "-exec" → String.prefix "-exec" line = false.
Proof.
  intros Hne. destruct (String.prefix "-exec" line) eqn:Hp; [|done].
  by apply String.prefix_correct in Hp.
Qed.

(** X17: a statement that the existence check runs is the [find]
    command of the branch for the metric [file]: seven items, of which
    the pattern alone carries the quoted suffixes, and none of which
    starts an [-exec], so that the template itself applies no helper to
    the files found.  The statements of the two other collectors hold
    the item that applies the helper script with their metric, [md5sum] or
    [wc -l]. *)
Theorem collectors_metric W test_scriptsdir infile outfile actions st :
  (checkFileExistence as_list quote W test_scriptsdir infile outfile = Ok actions →
   P_run st ∈ actions →
   (∃ track,
      snip infile ".log" = Ok track ∧
      st = ["find " +:+ track +:+ ".dir";
            "-type f";
            "-not -regex '.*\/report.*'";
            "-not -regex '.*\/_.*'";
            "\( " +:+
              join " -or "
                (map (λ x, "-regex .*" +:+ quote x +:+ "$")
                     (as_list (default EmptyString
                                 (PARAMS W !! (track +:+ "_regex_exist")))))
              +:+ " \)";
            "| sort -k1,1";
            "> " +:+ outfile]) ∧
   ∀ line, line ∈ st → String.prefix "-exec" line = false) ∧
  (buildCheckSums as_list quote W test_scriptsdir infile outfile = Ok actions →
   P_run st ∈ actions →
   ("-exec " +:+ test_scriptsdir +:+ "/cgat_file_apply.sh {} md5sum \;") ∈ st) ∧
  (buildLineCounts as_list quote W test_scriptsdir infile outfile = Ok actions →
   P_run st ∈ actions →
   ("-exec " +:+ test_scriptsdir +:+ "/cgat_file_apply.sh {} wc -l \;") ∈ st).
Proof.
  unfold checkFileExistence, buildCheckSums, buildLineCounts.
  destruct (snip infile ".log") as [track|e] eqn:Htrack; simpl;
    [|split_and!; discriminate].
  split_and!.
  - destruct (as_list _) as [|x l] eqn:Hl; simpl.
    + intros [= <-] Hin. set_solver.
    + rewrite Htrack. simpl. intros [= <-] Hin.
      apply elem_of_cons in Hin as [[=]|Hin].
      apply list_elem_of_singleton in Hin as [= ->].
      split.
      * exists track. split; [done|]. rewrite Hl. reflexivity.
      * intros line Hline. unfold find_statement in Hline. simpl in Hline.
        repeat (apply elem_of_cons in Hline as [->|Hline];
                [apply not_exec_line; simpl; discriminate|]).
        by apply not_elem_of_nil in Hline.
  - destruct (as_list _) as [|x l]; simpl.
    + intros [= <-] Hin. set_solver.
    + rewrite Htrack. simpl. intros [= <-] Hin.
      apply elem_of_cons in Hin as [[=]|Hin].
      apply list_elem_of_singleton in Hin as [= ->].
      unfold find_statement. simpl. set_solver.
  - destruct (as_list _) as [|x l]; simpl.
    + intros [= <-] Hin. set_solver.
    + rewrite Htrack. simpl. intros [= <-] Hin.
      apply elem_of_cons in Hin as [[=]|Hin].
      apply list_elem_of_singleton in Hin as [= ->].
      unfold find_statement. simpl. set_solver.
Qed.

End Collectors.

Lemma collectors_without_suffixes_witness :
  buildCheckSums comma_list (λ x, x)
    {| glob := λ _, []; is_complete := λ _, true; PARAMS := ∅; files := ∅ |}
    "scripts" "test_x.log" "test_x.md5"
  = Ok [E_info ("No metrics computed for " +:+ "test_x.md5");
        touch_file "test_x.md5"].
Proof.
  apply (collectors_without_suffixes comma_list (λ x, x)
           {| glob := λ _, []; is_complete := λ _, true;
              PARAMS := ∅; files := ∅ |}
           "scripts" "test_x.log" "test_x.md5" "test_x");
    reflexivity.
Defined.

Lemma collectors_metric_witness :
  let W := {| glob := λ _, []; is_complete := λ _, true;
              PARAMS := list_to_map [("test_x_regex_exist", "bam")];
              files := ∅ |} in
  ∃ actions st,
    checkFileExistence comma_list (λ x, x) W "scripts" "test_x.log" "test_x.exist"
      = Ok actions ∧
    P_run st ∈ actions ∧
    ∀ line, line ∈ st → String.prefix "-exec" line = false.
Proof.
  intros W.
  assert (∃ d st,
    checkFileExistence comma_list (λ x, x) W "scripts" "test_x.log" "test_x.exist"
      = Ok [d; P_run st]) as (d & st & Hrun)
    by (do 2 eexists; vm_compute; reflexivity).
  exists [d; P_run st], st. split; [exact Hrun|].
  assert (P_run st ∈ [d; P_run st]) as Hin
    by (apply list_elem_of_further, list_elem_of_here).
  split; [exact Hin|].
  apply (collectors_metric comma_list (λ x, x) W "scripts" "test_x.log"
           "test_x.exist" [d; P_run st] st); assumption.
Defined.
